(** * Grid interpolation and phase profiles of optiland

    A shallow embedding of
      - [optiland/phase/interpolators.py]  (class [GridInterpolator]),
      - [optiland/phase/grid.py]           (class [GridPhaseProfile]),
      - [optiland/phase/height_profile.py] (class [HeightProfile]).

    Numbers.  The Python code computes with floating-point arrays.  The
    embedding computes with exact rationals ([Q]): every arithmetic
    operation of the source is kept, in the source's order, and rounding is
    left out.  "Equal within floating-point tolerance" is therefore read as
    equality of rationals ([==]), and a difference of a third is read as a
    real difference.

    Arrays.  Query points are one-dimensional arrays, [list Q]; a grid is a
    two-dimensional array, [list (list Q)], row index first (the y axis).

    Exceptions.  A Python call that may raise returns a [result]. *)

From Stdlib Require Import QArith Qround ZArith List String Lia Lqa Bool.
From stdpp Require Import base gmap strings.
Import ListNotations.

Local Open Scope string_scope.
Local Open Scope Q_scope.

(** ** Exceptions and results *)

Inductive exn : Type :=
| ValueError
| ImportError
| IndexError
| KeyError
| TypeError
| AttributeError
| RuntimeError.

Inductive result (A : Type) : Type :=
| Ok (a : A)
| Raise (e : exn).

Arguments Ok {A} a.
Arguments Raise {A} e.

Definition bind {A B : Type} (r : result A) (k : A -> result B) : result B :=
  match r with
  | Ok a => k a
  | Raise e => Raise e
  end.

Notation "'let*' x ':=' r 'in' k" := (bind r (fun x => k))
  (at level 10, x pattern, r at level 100, k at level 200).

Definition raises {A : Type} (r : result A) : Prop :=
  exists e, r = Raise e.

(** ** Python indexing on one-dimensional arrays *)

(** [a[i]] for a non-negative literal [i]. *)
Definition getitem (a : list Q) (i : nat) : result Q :=
  match nth_error a i with
  | Some v => Ok v
  | None => Raise IndexError
  end.

(** [a[-1]]. *)
Definition getitem_last (a : list Q) : result Q :=
  match a with
  | [] => Raise IndexError
  | v :: _ => Ok (List.last a v)
  end.

(** [be.zeros_like(a)]. *)
Definition zeros_like (a : list Q) : list Q := List.map (fun _ => 0) a.

(** ** The numeric backend and the spline dependency

    [optiland.backend] and [scipy.interpolate] are not part of the three
    files; what the code takes from them is gathered in a record. *)

(** A fitted [scipy.interpolate.RectBivariateSpline]: only its method
    [ev(xi, yi, dx=0, dy=0)] is used, at one point. *)
Record Spline : Type := {
  ev : Q -> Q -> nat -> nat -> Q
}.

Record Backend : Type := {
  (** [be.get_backend()] *)
  get_backend : string;
  (** [be.pi] *)
  pi : Q;
  (** the module-level name [RectBivariateSpline]: [None] when the import of
      scipy failed, otherwise the fitting constructor, which may raise *)
  RectBivariateSpline :
    option (list Q -> list Q -> list (list Q) -> result Spline);
  (** Python's [str] on a float *)
  float_str : Q -> string
}.

(** ** Broadcasting of the two coordinate arrays *)

(** numpy broadcasting of two one-dimensional arrays, as
    [RectBivariateSpline.ev] applies it to its two coordinate arguments. *)
Definition broadcast (a b : list Q) : result (list (Q * Q)) :=
  if Nat.eqb (List.length a) (List.length b) then Ok (combine a b)
  else
    match a, b with
    | [a0], _ => Ok (List.map (fun v => (a0, v)) b)
    | _, [b0] => Ok (List.map (fun v => (v, b0)) a)
    | _, _ => Raise ValueError
    end.

(** [be.stack([a, b], axis=-1)] on two flattened arrays: no broadcasting. *)
Definition stack (a b : list Q) : result (list (Q * Q)) :=
  if Nat.eqb (List.length a) (List.length b) then Ok (combine a b)
  else Raise RuntimeError.

(** ** Bilinear sampling *)

Definition shape (g : list (list Q)) : nat * nat :=
  (List.length g, List.length (List.hd [] g)).

Definition within_bounds (i : Z) (size : nat) : bool :=
  (0 <=? i)%Z && (i <? Z.of_nat size)%Z.

(** The grid value at row [iy], column [ix]; zero outside the grid. *)
Definition pixel (g : list (list Q)) (iy ix : Z) : Q :=
  let (h, w) := shape g in
  if within_bounds iy h && within_bounds ix w
  then List.nth (Z.to_nat ix) (List.nth (Z.to_nat iy) g []) 0
  else 0.

(** From a normalized coordinate in [-1, 1] to a pixel index, with
    [align_corners=True]: -1 is pixel 0 and +1 is pixel [size - 1]. *)
Definition unnormalize (coord : Q) (size : nat) : Q :=
  (coord + 1) / 2 * (inject_Z (Z.of_nat size) - 1).

(** Modelled from the spec: [be.grid_sample(input, grid, mode="bilinear",
    align_corners=True)] of [optiland.backend], which is missing from the
    sources at hand.  The spec asks for bilinear sampling of a
    single-channel surface with corner-aligned semantics (the extreme grid
    coordinates map exactly to -1 and +1); a corner outside the surface
    counts as zero.  One sample point [(gx, gy)] of the normalized frame. *)
Definition grid_sample (g : list (list Q)) (gx gy : Q) : Q :=
  let (h, w) := shape g in
  let ix := unnormalize gx w in
  let iy := unnormalize gy h in
  let ix0 := Qfloor ix in
  let iy0 := Qfloor iy in
  let ix1 := (ix0 + 1)%Z in
  let iy1 := (iy0 + 1)%Z in
  let nw := (inject_Z ix1 - ix) * (inject_Z iy1 - iy) in
  let ne := (ix - inject_Z ix0) * (inject_Z iy1 - iy) in
  let sw := (inject_Z ix1 - ix) * (iy - inject_Z iy0) in
  let se := (ix - inject_Z ix0) * (iy - inject_Z iy0) in
  pixel g iy0 ix0 * nw + pixel g iy0 ix1 * ne
  + pixel g iy1 ix0 * sw + pixel g iy1 ix1 * se.

(** Modelled from the spec: the partial derivatives of [grid_sample] in
    the normalized coordinates, as automatic differentiation through the
    bilinear kernel yields them (the cell index is locally constant). *)
Definition grid_sample_grad (g : list (list Q)) (gx gy : Q) : Q * Q :=
  let (h, w) := shape g in
  let ix := unnormalize gx w in
  let iy := unnormalize gy h in
  let ix0 := Qfloor ix in
  let iy0 := Qfloor iy in
  let ix1 := (ix0 + 1)%Z in
  let iy1 := (iy0 + 1)%Z in
  let d_ix :=
    (pixel g iy0 ix1 - pixel g iy0 ix0) * (inject_Z iy1 - iy)
    + (pixel g iy1 ix1 - pixel g iy1 ix0) * (iy - inject_Z iy0) in
  let d_iy :=
    (pixel g iy1 ix0 - pixel g iy0 ix0) * (inject_Z ix1 - ix)
    + (pixel g iy1 ix1 - pixel g iy0 ix1) * (ix - inject_Z ix0) in
  (d_ix * ((inject_Z (Z.of_nat w) - 1) / 2),
   d_iy * ((inject_Z (Z.of_nat h) - 1) / 2)).

(** ** [GridInterpolator] *)

Module GridInterpolator.

(** What [_setup_numpy] or [_setup_torch] stores on the instance. *)
Inductive strategy : Type :=
| Numpy (_spline : Spline)
| Torch (_xmin _xmax _ymin _ymax : Q) (_grid_4d : list (list Q))
        (_dx _dy : Q).

Record t : Type := {
  backend : string;
  x_coords : list Q;
  y_coords : list Q;
  grid : list (list Q);
  state : strategy
}.

Definition _setup_numpy (be : Backend) (x y : list Q) (g : list (list Q))
  : result strategy :=
  match RectBivariateSpline be with
  | None => Raise ImportError
  | Some fit =>
      let* spline := fit y x g in
      Ok (Numpy spline)
  end.

Definition _setup_torch (be : Backend) (x y : list Q) (g : list (list Q))
  : result strategy :=
  let* xmin := getitem x 0 in
  let* xmax := getitem_last x in
  let* ymin := getitem y 0 in
  let* ymax := getitem_last y in
  let* x1 := getitem x 1 in
  let* x0 := getitem x 0 in
  let* y1 := getitem y 1 in
  let* y0 := getitem y 0 in
  Ok (Torch xmin xmax ymin ymax g (x1 - x0) (y1 - y0)).

Definition __init__ (be : Backend) (x y : list Q) (g : list (list Q))
  : result t :=
  let setup :=
    if String.eqb (get_backend be) "numpy" then Some _setup_numpy
    else if String.eqb (get_backend be) "torch" then Some _setup_torch
    else None in
  match setup with
  | None => Raise ValueError
  | Some setup =>
      let* st := setup be x y g in
      Ok {| backend := get_backend be; x_coords := x; y_coords := y;
            grid := g; state := st |}
  end.

(** [_normalize_and_grid], one coordinate. *)
Definition normalize (lo hi v : Q) : Q := 2 * (v - lo) / (hi - lo) - 1.

Definition _normalize_and_grid (xmin xmax ymin ymax : Q) (x y : list Q)
  : result (list (Q * Q)) :=
  stack (List.map (normalize xmin xmax) x) (List.map (normalize ymin ymax) y).

(** The closure [height_fn] of the strategy in use. *)
Definition height (self : t) (x y : list Q) : result (list Q) :=
  match state self with
  | Numpy spline =>
      let* pts := broadcast y x in
      Ok (List.map (fun p => ev spline (fst p) (snd p) 0 0) pts)
  | Torch xmin xmax ymin ymax g4 _ _ =>
      let* pts := _normalize_and_grid xmin xmax ymin ymax x y in
      Ok (List.map (fun p => grid_sample g4 (fst p) (snd p)) pts)
  end.

(** The closure [grad_fn] of the strategy in use.  Under torch,
    [be.autograd.grad] differentiates [height_fn] in the query
    coordinates: the kernel's derivative times the derivative [2 / (hi -
    lo)] of the normalization. *)
Definition gradient (self : t) (x y : list Q)
  : result (list Q * list Q) :=
  match state self with
  | Numpy spline =>
      let* pts := broadcast y x in
      Ok (List.map (fun p => ev spline (fst p) (snd p) 0 1) pts,
          List.map (fun p => ev spline (fst p) (snd p) 1 0) pts)
  | Torch xmin xmax ymin ymax g4 _ _ =>
      let* pts := _normalize_and_grid xmin xmax ymin ymax x y in
      Ok (List.map (fun p => fst (grid_sample_grad g4 (fst p) (snd p))
                             * (2 / (xmax - xmin))) pts,
          List.map (fun p => snd (grid_sample_grad g4 (fst p) (snd p))
                             * (2 / (ymax - ymin))) pts)
  end.

End GridInterpolator.

(** ** Serialized data *)

(** The Python values a serialized profile holds. *)
Inductive pyval : Type :=
| PyStr (s : string)
| PyList (l : list Q)
| PyNested (l : list (list Q)).

(** [data[key]]. *)
Definition dict_get (data : gmap string pyval) (key : string) : result pyval :=
  match data !! key with
  | Some v => Ok v
  | None => Raise KeyError
  end.

(** [be.to_numpy(a).tolist()] keeps the numbers of [a]. *)
Definition tolist1 (a : list Q) : pyval := PyList a.
Definition tolist2 (a : list (list Q)) : pyval := PyNested a.

(** [be.array(v)] for an entry of the nesting [to_dict] writes: a flat list
    for a coordinate axis, a nested list for a grid.  The arrays of this
    development are one-dimensional axes and two-dimensional grids; a value
    of another nesting, which [be.array] would turn into an array of another
    dimension, has no counterpart here and is reported as [TypeError].  The
    properties below apply [from_dict] to entries of the written nesting
    only. *)
Definition array1 (v : pyval) : result (list Q) :=
  match v with
  | PyList l => Ok l
  | _ => Raise TypeError
  end.

Definition array2 (v : pyval) : result (list (list Q)) :=
  match v with
  | PyNested l => Ok l
  | _ => Raise TypeError
  end.

(** Python's [str] on such a value. *)
Definition str_list (be : Backend) (l : list Q) : string :=
  "[" ++ String.concat ", " (List.map (float_str be) l) ++ "]".

Definition py_str (be : Backend) (v : pyval) : string :=
  match v with
  | PyStr s => s
  | PyList l => str_list be l
  | PyNested l => "[" ++ String.concat ", " (List.map (str_list be) l) ++ "]"
  end.

(** ** [BasePhaseProfile] *)

Module BasePhaseProfile.

(** Modelled from the spec: [BasePhaseProfile.to_dict] of
    [optiland/phase/base.py], which is missing from the sources at hand; the
    spec describes a mapping keyed by a [phase_type] discriminator. *)
Definition to_dict (phase_type : string) : gmap string pyval :=
  {[ "phase_type" := PyStr phase_type ]}.

End BasePhaseProfile.

(** ** [GridPhaseProfile] *)

Module GridPhaseProfile.

Definition phase_type : string := "grid".

Record t : Type := {
  backend : string;
  x_coords : list Q;
  y_coords : list Q;
  phase_grid : list (list Q);
  _interp : GridInterpolator.t
}.

Definition __init__ (be : Backend) (x y : list Q) (g : list (list Q))
  : result t :=
  let* interp := GridInterpolator.__init__ be x y g in
  Ok {| backend := get_backend be; x_coords := x; y_coords := y;
        phase_grid := g; _interp := interp |}.

(** [wavelength] defaults to [None]. *)
Definition get_phase (self : t) (x y : list Q) (wavelength : option Q)
  : result (list Q) :=
  GridInterpolator.height (_interp self) x y.

Definition get_gradient (self : t) (x y : list Q) (wavelength : option Q)
  : result (list Q * list Q * list Q) :=
  let* d := GridInterpolator.gradient (_interp self) x y in
  Ok (fst d, snd d, zeros_like x).

Definition get_paraxial_gradient (self : t) (y : list Q)
  (wavelength : option Q) : result (list Q) :=
  let x0 := zeros_like y in
  let* d := GridInterpolator.gradient (_interp self) x0 y in
  Ok (snd d).

Definition to_dict (self : t) : gmap string pyval :=
  let data := BasePhaseProfile.to_dict phase_type in
  let data := <[ "x_coords" := tolist1 (x_coords self) ]> data in
  let data := <[ "y_coords" := tolist1 (y_coords self) ]> data in
  let data := <[ "phase_grid" := tolist2 (phase_grid self) ]> data in
  data.

Definition from_dict (be : Backend) (data : gmap string pyval) : result t :=
  let* vx := dict_get data "x_coords" in
  let* x := array1 vx in
  let* vy := dict_get data "y_coords" in
  let* y := array1 vy in
  let* vg := dict_get data "phase_grid" in
  let* g := array2 vg in
  __init__ be x y g.

End GridPhaseProfile.

(** ** [HeightProfile] *)

(** What the attribute [material] may hold: a material object, with its
    optional attribute [name], its [str] and its method [n]; or a plain
    value, as [from_dict] stores it. *)
Inductive material_attr : Type :=
| MaterialObject (name : option string) (str : string) (n : Q -> Q)
| PlainValue (v : pyval).

(** [material.n(wavelength)]. *)
Definition material_n (m : material_attr) (wavelength : Q) : result Q :=
  match m with
  | MaterialObject _ _ n => Ok (n wavelength)
  | PlainValue _ => Raise AttributeError
  end.

(** [getattr(material, "name", str(material))]. *)
Definition material_name (be : Backend) (m : material_attr) : string :=
  match m with
  | MaterialObject (Some name) _ _ => name
  | MaterialObject None str _ => str
  | PlainValue v => py_str be v
  end.

Module HeightProfile.

Definition phase_type : string := "height_profile".

Record t : Type := {
  backend : string;
  x_coords : list Q;
  y_coords : list Q;
  height_map : list (list Q);
  material : material_attr;
  _interp : GridInterpolator.t
}.

Definition __init__ (be : Backend) (x y : list Q) (g : list (list Q))
  (m : material_attr) : result t :=
  let* interp := GridInterpolator.__init__ be x y g in
  Ok {| backend := get_backend be; x_coords := x; y_coords := y;
        height_map := g; material := m; _interp := interp |}.

Definition _interpolate_height (self : t) (x y : list Q) : result (list Q) :=
  GridInterpolator.height (_interp self) x y.

Definition _interpolate_gradient (self : t) (x y : list Q)
  : result (list Q * list Q) :=
  GridInterpolator.gradient (_interp self) x y.

Definition get_phase (be : Backend) (self : t) (x y : list Q) (wavelength : Q)
  : result (list Q) :=
  let* h := _interpolate_height self x y in
  let* n := material_n (material self) wavelength in
  Ok (List.map (fun hk => 2 * pi be / (wavelength * (1 # 1000)) * (n - 1) * hk) h).

Definition get_gradient (be : Backend) (self : t) (x y : list Q)
  (wavelength : Q) : result (list Q * list Q * list Q) :=
  let* d := _interpolate_gradient self x y in
  let* n := material_n (material self) wavelength in
  let factor := 2 * pi be / (wavelength * (1 # 1000)) * (n - 1) in
  Ok (List.map (fun dk => factor * dk) (fst d),
      List.map (fun dk => factor * dk) (snd d),
      zeros_like x).

Definition get_paraxial_gradient (be : Backend) (self : t) (y : list Q)
  (wavelength : Q) : result (list Q) :=
  let x0 := zeros_like y in
  let* d := _interpolate_gradient self x0 y in
  let* n := material_n (material self) wavelength in
  Ok (List.map
        (fun dk => 2 * pi be / (wavelength * (1 # 1000)) * (n - 1) * dk)
        (snd d)).

Definition to_dict (be : Backend) (self : t) : gmap string pyval :=
  let data := BasePhaseProfile.to_dict phase_type in
  let data := <[ "x_coords" := tolist1 (x_coords self) ]> data in
  let data := <[ "y_coords" := tolist1 (y_coords self) ]> data in
  let data := <[ "height_map" := tolist2 (height_map self) ]> data in
  let data := <[ "material" := PyStr (material_name be (material self)) ]> data in
  data.

Definition from_dict (be : Backend) (data : gmap string pyval) : result t :=
  let* vx := dict_get data "x_coords" in
  let* x := array1 vx in
  let* vy := dict_get data "y_coords" in
  let* y := array1 vy in
  let* vg := dict_get data "height_map" in
  let* g := array2 vg in
  let* vm := dict_get data "material" in
  __init__ be x y g (PlainValue vm).

End HeightProfile.

(** ** [MTFvsField] *)

(** A [for] loop over [l] whose body updates a local state and may raise. *)
Fixpoint for_each {A S : Type} (l : list A) (body : S -> A -> result S)
  (s : S) : result S :=
  match l with
  | [] => Ok s
  | a :: l' =>
      let* s' := body s a in
      for_each l' body s'
  end.

(** A [for] loop over [l] that appends one value per element to a list, the
    computation of which may raise. *)
Fixpoint for_list {A B : Type} (f : A -> result B) (l : list A)
  : result (list B) :=
  match l with
  | [] => Ok []
  | a :: l' =>
      let* b := f a in
      let* bs := for_list f l' in
      Ok (b :: bs)
  end.

Module MTFvsField.

Definition MAX_FREQUENCIES : nat := 5.
Definition MAX_WAVELENGTHS : nat := 3.

(** The [wavelengths] argument of the constructor: a keyword such as "all",
    or a list of values. *)
Inductive wavelengths_arg : Type :=
| Keyword (s : string)
| Values (l : list Q).

(** The entry of one frequency: [{"tangential": ..., "sagittal": ...}]. *)
Record curves : Type := {
  tangential : list Q;
  sagittal : list Q
}.

Section Collaborators.

Context {Optic : Type}.

(** [optiland.utils.resolve_wavelengths(optic, wavelengths)]. *)
Variable resolve_wavelengths : Optic -> wavelengths_arg -> result (list Q).

(** [be.linspace(start, stop, num)]. *)
Variable linspace : Q -> Q -> nat -> list Q.

(** [SampledMTF(optic=optic, field=field, wavelength=wl, num_rays=num_rays,
    distribution="uniform", zernike_terms=37,
    zernike_type="fringe").calculate_mtf(freqs)]. *)
Variable calculate_mtf :
  Optic -> Q * Q -> Q -> nat -> list (Q * Q) -> result (list Q).

(** The attributes [_generate_data] reads. *)
Record t : Type := {
  optic : Optic;
  frequencies : list Q;
  num_fields : nat;
  num_rays : nat;
  wavelengths : list Q
}.

(** [_check_limits]; of [self] it reads [frequencies] only. *)
Definition _check_limits (frequencies : list Q) (override_limits : bool)
  (wavelengths : wavelengths_arg) (optic : Optic) : result unit :=
  if override_limits then Ok tt
  else if Nat.ltb MAX_FREQUENCIES (List.length frequencies)
  then Raise ValueError
  else
    let* resolved_wls := resolve_wavelengths optic wavelengths in
    let num_wl := List.length resolved_wls in
    if Nat.ltb MAX_WAVELENGTHS num_wl then Raise ValueError else Ok tt.

(** The list [freqs_to_calc] that [_generate_data] builds. *)
Definition freqs_to_calc (frequencies : list Q) : list (Q * Q) :=
  List.flat_map (fun freq => [(freq, 0); (0, freq)]) frequencies.

(** The body of the loop over [i_freq]: both appends to
    [wl_results[i_freq]]. *)
Definition record_mtfs (mtfs : list Q) (wl_results : list curves)
  (i_freq : nat) : result (list curves) :=
  match wl_results !! i_freq with
  | None => Raise IndexError
  | Some c =>
      let* tan := getitem mtfs (2 * i_freq) in
      let* sag := getitem mtfs (2 * i_freq + 1) in
      Ok (<[ i_freq := {| tangential := tangential c ++ [tan];
                          sagittal := sagittal c ++ [sag] |} ]> wl_results)
  end.

(** The body of the loop over [fields]. *)
Definition sample_field (self : t) (wl : Q) (wl_results : list curves)
  (field : Q * Q) : result (list curves) :=
  let* mtfs := calculate_mtf (optic self) field wl (num_rays self)
                 (freqs_to_calc (frequencies self)) in
  for_each (List.seq 0 (List.length (frequencies self))) (record_mtfs mtfs)
    wl_results.

(** The body of the loop over [self.wavelengths]. *)
Definition sample_wavelength (self : t) (fields : list (Q * Q)) (wl : Q)
  : result (list curves) :=
  let wl_results :=
    List.map (fun _ => {| tangential := []; sagittal := [] |})
      (frequencies self) in
  for_each fields (sample_field self wl) wl_results.

(** [_generate_data]: the value stored in [self._field_coords] and the
    value returned. *)
Definition _generate_data (self : t)
  : result (list (Q * Q) * list (list curves)) :=
  let fields :=
    List.map (fun Hy => (0, Hy)) (linspace 0 1 (num_fields self)) in
  let* results := for_list (sample_wavelength self fields) (wavelengths self) in
  Ok (fields, results).

End Collaborators.

(** In [view], the index into the colour cycle of the curves of wavelength
    [i_wl] and frequency [i_freq]; [None] when the cycle is empty and the
    remainder is undefined. *)
Definition color_idx (n_colors n_freq i_wl i_freq : nat) : option nat :=
  if Nat.eqb n_colors 0 then None
  else Some ((i_wl * n_freq + i_freq) mod n_colors)%nat.

End MTFvsField.

(** ** Sample environments *)

(** The torch backend; [be.pi] is the double nearest to pi. *)
Definition torch_backend : Backend := {|
  get_backend := "torch";
  pi := 884279719003555 # 281474976710656;
  RectBivariateSpline := None;
  float_str := fun _ => "0.0"
|}.

(** A fitter standing for scipy's bicubic one: it rejects an axis of fewer
    than four entries and a grid of the wrong shape, and otherwise returns
    the constant surface through the first grid value, which is the fit of a
    constant grid. *)
Definition sample_fit (y x : list Q) (g : list (list Q)) : result Spline :=
  if Nat.leb 4 (List.length y) && Nat.leb 4 (List.length x)
     && Nat.eqb (fst (shape g)) (List.length y)
     && Nat.eqb (snd (shape g)) (List.length x)
  then Ok {| ev := fun _ _ dx dy =>
                     match dx, dy with
                     | O, O => pixel g 0 0
                     | _, _ => 0
                     end |}
  else Raise ValueError.

Definition numpy_backend : Backend := {|
  get_backend := "numpy";
  pi := 884279719003555 # 281474976710656;
  RectBivariateSpline := Some sample_fit;
  float_str := fun _ => "0.0"
|}.

(** A constant grid of four rows and four columns. *)
Definition ones4 : list (list Q) :=
  [[1; 1; 1; 1]; [1; 1; 1; 1]; [1; 1; 1; 1]; [1; 1; 1; 1]].

(** A backend that is neither of the two. *)
Definition jax_backend : Backend := {|
  get_backend := "jax";
  pi := 884279719003555 # 281474976710656;
  RectBivariateSpline := None;
  float_str := fun _ => "0.0"
|}.

(** A height map of constant height 3/10 over the unit square, under the
    torch backend, in a material of constant index 3/2. *)
Definition flat_interp : GridInterpolator.t := {|
  GridInterpolator.backend := "torch";
  GridInterpolator.x_coords := [0; 1];
  GridInterpolator.y_coords := [0; 1];
  GridInterpolator.grid := [[3 # 10; 3 # 10]; [3 # 10; 3 # 10]];
  GridInterpolator.state :=
    GridInterpolator.Torch 0 1 0 1 [[3 # 10; 3 # 10]; [3 # 10; 3 # 10]]
      (1 - 0) (1 - 0)
|}.

Definition glass : material_attr :=
  MaterialObject (Some "glass") "IdealMaterial" (fun _ => 3 # 2).

Definition flat_profile : HeightProfile.t := {|
  HeightProfile.backend := "torch";
  HeightProfile.x_coords := [0; 1];
  HeightProfile.y_coords := [0; 1];
  HeightProfile.height_map := [[3 # 10; 3 # 10]; [3 # 10; 3 # 10]];
  HeightProfile.material := glass;
  HeightProfile._interp := flat_interp
|}.

(** An axis whose consecutive coordinates are a fixed non-zero step apart,
    as [linspace] produces them. *)
Definition evenly_spaced (a : list Q) : Prop :=
  exists step, ~ step == 0
    /\ forall k, (k < List.length a)%nat ->
         List.nth k a 0 == List.nth 0 a 0 + inject_Z (Z.of_nat k) * step.

(** [wl_results] once the values [mtfs] of one more field are recorded. *)
Definition with_sample (mtfs : list Q) (wl_results : list MTFvsField.curves)
  : list MTFvsField.curves :=
  imap (fun i c =>
          {| MTFvsField.tangential :=
               MTFvsField.tangential c ++ [List.nth (2 * i) mtfs 0];
             MTFvsField.sagittal :=
               MTFvsField.sagittal c ++ [List.nth (2 * i + 1) mtfs 0] |})
    wl_results.

(** The curves of [n_freq] frequencies over the given fields, read off the
    values [mtf field] computed at each field. *)
Definition curves_over (n_freq : nat) (mtf : Q * Q -> list Q)
  (fields : list (Q * Q)) : list MTFvsField.curves :=
  List.map (fun i =>
              {| MTFvsField.tangential :=
                   List.map (fun field => List.nth (2 * i) (mtf field) 0) fields;
                 MTFvsField.sagittal :=
                   List.map (fun field => List.nth (2 * i + 1) (mtf field) 0)
                     fields |})
    (List.seq 0 n_freq).

(** Collaborators for a sample analysis: evenly spaced field coordinates,
    and a sampler that answers every requested frequency pair. *)
Definition sample_linspace (start stop : Q) (num : nat) : list Q :=
  List.map
    (fun k => start + inject_Z (Z.of_nat k)
                      * ((stop - start) / (inject_Z (Z.of_nat num) - 1)))
    (List.seq 0 num).

Definition sample_calculate_mtf (optic : unit) (field : Q * Q) (wl : Q)
  (num_rays : nat) (freqs : list (Q * Q)) : result (list Q) :=
  Ok (List.map (fun fq => 1 / (1 + fst fq + 2 * snd fq + snd field)) freqs).

(** A sampler that answers with a single value, whatever is requested. *)
Definition short_calculate_mtf (optic : unit) (field : Q * Q) (wl : Q)
  (num_rays : nat) (freqs : list (Q * Q)) : result (list Q) :=
  Ok [1].

Definition sample_analysis : @MTFvsField.t unit := {|
  MTFvsField.optic := tt;
  MTFvsField.frequencies := [10; 20];
  MTFvsField.num_fields := 3;
  MTFvsField.num_rays := 16;
  MTFvsField.wavelengths := [11 # 20]
|}.

(** A height map with a slope in both directions, under the torch backend,
    in the material [glass]. *)
Definition sloped_interp : GridInterpolator.t := {|
  GridInterpolator.backend := "torch";
  GridInterpolator.x_coords := [0; 1; 2];
  GridInterpolator.y_coords := [0; 1];
  GridInterpolator.grid := [[0; 1; 4]; [2; 3; 6]];
  GridInterpolator.state :=
    GridInterpolator.Torch 0 2 0 1 [[0; 1; 4]; [2; 3; 6]] (1 - 0) (1 - 0)
|}.


(** * Properties *)

(** ** Construction *)

Lemma last_default (A : Type) (l : list A) (a d d' : A) :
  List.last (a :: l) d = List.last (a :: l) d'.
Proof.
  revert a. induction l as [|b l IH]; intros a; [reflexivity|].
  change (List.last (b :: l) d = List.last (b :: l) d'). apply IH.
Qed.

Lemma setup_torch_ok (be : Backend) (x0 x1 : Q) (xs : list Q) (y0 y1 : Q)
  (ys : list Q) (g : list (list Q)) :
  GridInterpolator._setup_torch be (x0 :: x1 :: xs) (y0 :: y1 :: ys) g
  = Ok (GridInterpolator.Torch x0 (List.last (x1 :: xs) x0)
          y0 (List.last (y1 :: ys) y0) g (x1 - x0) (y1 - y0)).
Proof. reflexivity. Qed.

Lemma setup_torch_short (be : Backend) (x y : list Q) (g : list (list Q)) :
  (List.length x < 2 \/ List.length y < 2)%nat ->
  GridInterpolator._setup_torch be x y g = Raise IndexError.
Proof.
  intros H.
  destruct x as [|x0 [|x1 xs]]; try reflexivity;
    destruct y as [|y0 [|y1 ys]]; try reflexivity.
  simpl in H; lia.
Qed.

Lemma init_torch (be : Backend) (x y : list Q) (g : list (list Q)) :
  get_backend be = "torch" ->
  GridInterpolator.__init__ be x y g
  = let* st := GridInterpolator._setup_torch be x y g in
    Ok {| GridInterpolator.backend := "torch";
          GridInterpolator.x_coords := x;
          GridInterpolator.y_coords := y;
          GridInterpolator.grid := g;
          GridInterpolator.state := st |}.
Proof. intros H. unfold GridInterpolator.__init__. rewrite H. reflexivity. Qed.

Lemma init_numpy (be : Backend) (x y : list Q) (g : list (list Q)) :
  get_backend be = "numpy" ->
  GridInterpolator.__init__ be x y g
  = let* st := GridInterpolator._setup_numpy be x y g in
    Ok {| GridInterpolator.backend := "numpy";
          GridInterpolator.x_coords := x;
          GridInterpolator.y_coords := y;
          GridInterpolator.grid := g;
          GridInterpolator.state := st |}.
Proof. intros H. unfold GridInterpolator.__init__. rewrite H. reflexivity. Qed.

(** C7.  When the active backend is neither "numpy" nor "torch",
    constructing a [GridInterpolator] raises [ValueError], whatever the
    coordinates and the grid are: no setup routine runs, so none of their
    errors (a missing scipy, an index out of range) can occur instead, and
    no interpolator is returned. *)
Theorem C7_unsupported_backend_raises
  (be : Backend) (x y : list Q) (g : list (list Q)) :
  get_backend be <> "numpy" ->
  get_backend be <> "torch" ->
  GridInterpolator.__init__ be x y g = Raise ValueError.
Proof.
  intros Hn Ht. unfold GridInterpolator.__init__.
  destruct (String.eqb_spec (get_backend be) "numpy") as [E|_]; [contradiction|].
  destruct (String.eqb_spec (get_backend be) "torch") as [E|_]; [contradiction|].
  reflexivity.
Qed.

Lemma C7_unsupported_backend_raises_witness :
  GridInterpolator.__init__ jax_backend [] [] [[1; 2]] = Raise ValueError.
Proof.
  apply (C7_unsupported_backend_raises jax_backend [] [] [[1; 2]]);
    simpl; discriminate.
Defined.

Lemma init_torch_ok_iff (be : Backend) (x y : list Q) (g : list (list Q)) :
  get_backend be = "torch" ->
  (exists it, GridInterpolator.__init__ be x y g = Ok it)
  <-> (2 <= List.length x /\ 2 <= List.length y)%nat.
Proof.
  intros Ht. rewrite (init_torch be x y g Ht). split.
  - intros [it Hit].
    destruct (Nat.lt_ge_cases (List.length x) 2) as [Hx|Hx];
      [rewrite setup_torch_short in Hit by (left; exact Hx); discriminate|].
    destruct (Nat.lt_ge_cases (List.length y) 2) as [Hy|Hy];
      [rewrite setup_torch_short in Hit by (right; exact Hy); discriminate|].
    split; assumption.
  - intros [Hx Hy].
    destruct x as [|x0 [|x1 xs]]; simpl in Hx; try lia.
    destruct y as [|y0 [|y1 ys]]; simpl in Hy; try lia.
    rewrite setup_torch_ok. simpl. eexists. reflexivity.
Qed.

Lemma init_torch_state (be : Backend) (x y : list Q) (g : list (list Q))
  (it : GridInterpolator.t) :
  get_backend be = "torch" ->
  GridInterpolator.__init__ be x y g = Ok it ->
  it = {| GridInterpolator.backend := "torch";
          GridInterpolator.x_coords := x;
          GridInterpolator.y_coords := y;
          GridInterpolator.grid := g;
          GridInterpolator.state :=
            GridInterpolator.Torch (List.nth 0 x 0) (List.last x 0)
              (List.nth 0 y 0) (List.last y 0) g
              (List.nth 1 x 0 - List.nth 0 x 0)
              (List.nth 1 y 0 - List.nth 0 y 0) |}.
Proof.
  intros Ht Hit. rewrite (init_torch be x y g Ht) in Hit.
  destruct x as [|x0 [|x1 xs]]; try discriminate Hit;
    destruct y as [|y0 [|y1 ys]]; try discriminate Hit.
  rewrite setup_torch_ok in Hit. cbn [bind] in Hit.
  rewrite (last_default _ xs x1 x0 0), (last_default _ ys y1 y0 0) in Hit.
  injection Hit as <-. reflexivity.
Qed.

(** C9.  Under the torch backend, construction reads [x_coords[1]] and
    [y_coords[1]]: it succeeds exactly when each coordinate axis has at
    least two entries and raises [IndexError] otherwise.  On success the
    instance keeps the first and last coordinate of each axis, whose
    difference the normalization divides by; on an axis with a single entry
    that difference would be zero.  The numpy strategy indexes nothing: with
    a fitter that accepts the data it succeeds on the same arguments. *)
Theorem C9_torch_construction_needs_two_entries
  (be : Backend) (x y : list Q) (g : list (list Q)) :
  get_backend be = "torch" ->
  ((exists it, GridInterpolator.__init__ be x y g = Ok it)
   <-> (2 <= List.length x /\ 2 <= List.length y)%nat)
  /\ ((List.length x < 2 \/ List.length y < 2)%nat ->
      GridInterpolator.__init__ be x y g = Raise IndexError)
  /\ (forall it, GridInterpolator.__init__ be x y g = Ok it ->
      GridInterpolator.state it
      = GridInterpolator.Torch (List.nth 0 x 0) (List.last x 0)
          (List.nth 0 y 0) (List.last y 0) g
          (List.nth 1 x 0 - List.nth 0 x 0)
          (List.nth 1 y 0 - List.nth 0 y 0))
  /\ (forall a, List.length a = 1%nat -> List.last a 0 - List.nth 0 a 0 == 0)
  /\ (forall be' fit spline,
      get_backend be' = "numpy" ->
      RectBivariateSpline be' = Some fit ->
      fit y x g = Ok spline ->
      exists it, GridInterpolator.__init__ be' x y g = Ok it
                 /\ GridInterpolator.state it = GridInterpolator.Numpy spline).
Proof.
  intros Ht. split; [|split; [|split; [|split]]].
  - apply (init_torch_ok_iff be x y g Ht).
  - intros Hshort. rewrite (init_torch be x y g Ht).
    rewrite setup_torch_short by exact Hshort. reflexivity.
  - intros it Hit. rewrite (init_torch_state be x y g it Ht Hit). reflexivity.
  - intros a Ha. destruct a as [|a0 [|a1 a']]; try discriminate Ha.
    simpl. ring.
  - intros be' fit spline Hn Hfit Hs. rewrite (init_numpy be' x y g Hn).
    unfold GridInterpolator._setup_numpy. rewrite Hfit, Hs. simpl.
    eexists. split; reflexivity.
Qed.

Lemma C9_torch_construction_needs_two_entries_witness :
  GridInterpolator.__init__ torch_backend [5] [0; 1] [[1]; [2]]
  = Raise IndexError
  /\ (exists it,
        GridInterpolator.__init__ torch_backend [0; 1; 2; 3] [0; 1; 2; 3] ones4
        = Ok it)
  /\ (exists it,
        GridInterpolator.__init__ numpy_backend [0; 1; 2; 3] [0; 1; 2; 3] ones4
        = Ok it).
Proof.
  destruct (C9_torch_construction_needs_two_entries
              torch_backend [5] [0; 1] [[1]; [2]] eq_refl)
    as (_ & Hshort & _).
  destruct (C9_torch_construction_needs_two_entries
              torch_backend [0; 1; 2; 3] [0; 1; 2; 3] ones4 eq_refl)
    as (Hiff & _ & _ & _ & Hnumpy).
  split; [apply Hshort; left; simpl; lia|]. split.
  - apply Hiff. simpl. lia.
  - destruct (Hnumpy numpy_backend sample_fit
                {| ev := fun _ _ dx dy =>
                           match dx, dy with
                           | O, O => pixel ones4 0 0
                           | _, _ => 0
                           end |} eq_refl eq_refl eq_refl) as (it & Hit & _).
    exists it. exact Hit.
Defined.

(** C2 at a failing input.  Under the torch backend a grid of shape (1, 3)
    over two x and two y coordinates is accepted without any error:
    constructing a [GridInterpolator], a [GridPhaseProfile] and a
    [HeightProfile] returns, and the interpolator then spreads the three
    columns over the two x coordinates (heights 1, 2 and 3 at x = 0, 1/2
    and 1). *)
Theorem C2_shape_mismatch_accepted :
  shape [[1; 2; 3]] <> (List.length [0; 1], List.length [0; 1])
  /\ (exists it h0 h1 h2,
        GridInterpolator.__init__ torch_backend [0; 1] [0; 1] [[1; 2; 3]]
        = Ok it
        /\ GridInterpolator.height it [0; 1 # 2; 1] [0; 0; 0]
           = Ok [h0; h1; h2]
        /\ h0 == 1 /\ h1 == 2 /\ h2 == 3)
  /\ (exists p,
        GridPhaseProfile.__init__ torch_backend [0; 1] [0; 1] [[1; 2; 3]]
        = Ok p)
  /\ (exists p,
        HeightProfile.__init__ torch_backend [0; 1] [0; 1] [[1; 2; 3]] glass
        = Ok p).
Proof.
  split; [discriminate|].
  split; [|split; eexists; reflexivity].
  do 4 eexists. split; [reflexivity|].
  split; [vm_compute; reflexivity|].
  split; [|split]; reflexivity.
Qed.

(** ** Evaluation *)

Lemma zeros_like_repeat (a : list Q) :
  zeros_like a = List.repeat 0 (List.length a).
Proof. induction a as [|v a IH]; simpl; [reflexivity|]. f_equal. exact IH. Qed.

Lemma zeros_like_length (a : list Q) :
  List.length (zeros_like a) = List.length a.
Proof. unfold zeros_like. apply length_map. Qed.

Lemma broadcast_same_length (a b : list Q) :
  List.length a = List.length b -> broadcast a b = Ok (combine a b).
Proof. intros H. unfold broadcast. rewrite H, Nat.eqb_refl. reflexivity. Qed.

Lemma stack_same_length (a b : list Q) :
  List.length a = List.length b -> stack a b = Ok (combine a b).
Proof. intros H. unfold stack. rewrite H, Nat.eqb_refl. reflexivity. Qed.

(** Query arrays of equal length are evaluated without error, under either
    strategy. *)
Lemma height_total (it : GridInterpolator.t) (x y : list Q) :
  List.length x = List.length y ->
  exists hs, GridInterpolator.height it x y = Ok hs.
Proof.
  intros H. unfold GridInterpolator.height.
  destruct (GridInterpolator.state it) as [s|xmin xmax ymin ymax g4 dx dy].
  - rewrite broadcast_same_length by (symmetry; exact H). simpl.
    eexists; reflexivity.
  - unfold GridInterpolator._normalize_and_grid.
    rewrite stack_same_length by (rewrite !length_map; exact H). simpl.
    eexists; reflexivity.
Qed.

Lemma gradient_total (it : GridInterpolator.t) (x y : list Q) :
  List.length x = List.length y ->
  exists dx dy, GridInterpolator.gradient it x y = Ok (dx, dy).
Proof.
  intros H. unfold GridInterpolator.gradient.
  destruct (GridInterpolator.state it) as [s|xmin xmax ymin ymax g4 dx dy].
  - rewrite broadcast_same_length by (symmetry; exact H). simpl.
    do 2 eexists; reflexivity.
  - unfold GridInterpolator._normalize_and_grid.
    rewrite stack_same_length by (rewrite !length_map; exact H). simpl.
    do 2 eexists; reflexivity.
Qed.

(** C1 at a failing input.  Under the torch backend, on the grid with
    x_coords = (0, 1, 3), y_coords = (0, 1) and both rows (0, 1, 3), the
    height at the node x_coords[1], y_coords[0] is 2/3 and not values[0, 1]
    = 1: the normalization places x = 1 a third of the way from 0 to 3,
    between pixel 0 and pixel 1, and the sampler weighs the two. *)
Theorem C1_torch_node_off_on_uneven_grid :
  let x := [0; 1; 3] in
  let y := [0; 1] in
  let values := [[0; 1; 3]; [0; 1; 3]] in
  let i := 0%nat in
  let j := 1%nat in
  exists it h,
    GridInterpolator.__init__ torch_backend x y values = Ok it
    /\ GridInterpolator.height it [List.nth j x 0] [List.nth i y 0] = Ok [h]
    /\ h == 2 # 3
    /\ ~ h == List.nth j (List.nth i values []) 0.
Proof.
  cbv zeta. do 2 eexists. split; [reflexivity|].
  split; [vm_compute; reflexivity|].
  split; [reflexivity|discriminate].
Qed.

(** C3.  For a [HeightProfile] whose material is a material object with
    index function n, and query points at which the interpolated heights are
    hs, [get_phase] returns, for each height h of hs,
    2 * pi / (wavelength * 10^-3) * (n(wavelength) - 1) * h. *)
Theorem C3_height_profile_phase
  (be : Backend) (self : HeightProfile.t) (x y : list Q) (wavelength : Q)
  (name : option string) (str : string) (n : Q -> Q) (hs : list Q) :
  HeightProfile.material self = MaterialObject name str n ->
  GridInterpolator.height (HeightProfile._interp self) x y = Ok hs ->
  HeightProfile.get_phase be self x y wavelength
  = Ok (List.map
          (fun h => 2 * pi be / (wavelength * (1 # 1000))
                    * (n wavelength - 1) * h) hs).
Proof.
  intros Hm Hh. unfold HeightProfile.get_phase, HeightProfile._interpolate_height.
  rewrite Hh, Hm. reflexivity.
Qed.

Lemma C3_height_profile_phase_witness :
  HeightProfile.__init__ torch_backend [0; 1] [0; 1]
    [[3 # 10; 3 # 10]; [3 # 10; 3 # 10]] glass = Ok flat_profile
  /\ exists h,
       h == 3 # 10
       /\ HeightProfile.get_phase torch_backend flat_profile [1 # 2] [1 # 4] 1
          = Ok [2 * pi torch_backend / (1 * (1 # 1000)) * ((3 # 2) - 1) * h].
Proof.
  split; [reflexivity|].
  eexists. split;
    [|apply (C3_height_profile_phase torch_backend flat_profile
               [1 # 2] [1 # 4] 1 (Some "glass") "IdealMaterial"
               (fun _ => 3 # 2) [_]);
      [reflexivity|vm_compute; reflexivity]].
  reflexivity.
Defined.

(** C5.  The paraxial gradient is the y component of the full gradient taken
    at x = 0 (an array of zeros shaped like y).  For a [GridPhaseProfile]
    both calls return, and the first returns the second component of the
    second; for a [HeightProfile] the two calls agree, raising together when
    the material has no index function, and return likewise when the
    material is a material object. *)
Theorem C5_paraxial_gradient_is_gradient_at_zero
  (be : Backend) (gp : GridPhaseProfile.t) (hp : HeightProfile.t)
  (y : list Q) (wg : option Q) (wh : Q) :
  (exists gx gy gz,
      GridPhaseProfile.get_gradient gp (zeros_like y) y wg = Ok (gx, gy, gz)
      /\ GridPhaseProfile.get_paraxial_gradient gp y wg = Ok gy)
  /\ HeightProfile.get_paraxial_gradient be hp y wh
     = (let* g := HeightProfile.get_gradient be hp (zeros_like y) y wh in
        Ok (snd (fst g)))
  /\ (forall name str n,
      HeightProfile.material hp = MaterialObject name str n ->
      exists gx gy gz,
        HeightProfile.get_gradient be hp (zeros_like y) y wh = Ok (gx, gy, gz)
        /\ HeightProfile.get_paraxial_gradient be hp y wh = Ok gy).
Proof.
  split; [|split].
  - destruct (gradient_total (GridPhaseProfile._interp gp) (zeros_like y) y
                (zeros_like_length y)) as (dx & dy & Hd).
    exists dx, dy, (zeros_like (zeros_like y)).
    unfold GridPhaseProfile.get_gradient, GridPhaseProfile.get_paraxial_gradient.
    rewrite Hd. split; reflexivity.
  - unfold HeightProfile.get_paraxial_gradient, HeightProfile.get_gradient.
    destruct (HeightProfile._interpolate_gradient hp (zeros_like y) y)
      as [d|e]; [|reflexivity].
    cbn [bind]. destruct (material_n (HeightProfile.material hp) wh) as [n|e];
      reflexivity.
  - intros name str n Hm.
    destruct (gradient_total (HeightProfile._interp hp) (zeros_like y) y
                (zeros_like_length y)) as (dx & dy & Hd).
    unfold HeightProfile.get_gradient, HeightProfile.get_paraxial_gradient,
      HeightProfile._interpolate_gradient.
    rewrite Hd, Hm. cbn [bind material_n fst snd].
    do 3 eexists. split; reflexivity.
Qed.

(** C6.  A [GridPhaseProfile] ignores its wavelength argument: phase,
    gradient and paraxial gradient are the same for any two wavelengths,
    [None] included, and the phase is the interpolator's height. *)
Theorem C6_grid_phase_ignores_wavelength
  (self : GridPhaseProfile.t) (x y : list Q) (w1 w2 : option Q) :
  GridPhaseProfile.get_phase self x y w1 = GridPhaseProfile.get_phase self x y w2
  /\ GridPhaseProfile.get_gradient self x y w1
     = GridPhaseProfile.get_gradient self x y w2
  /\ GridPhaseProfile.get_paraxial_gradient self y w1
     = GridPhaseProfile.get_paraxial_gradient self y w2
  /\ GridPhaseProfile.get_phase self x y w1
     = GridInterpolator.height (GridPhaseProfile._interp self) x y.
Proof. repeat split. Qed.

(** C8.  The third component of the tuple [get_gradient] returns is an array
    of zeros with as many entries as x, for both profile variants; and the
    call does return on query arrays of equal length (for a [HeightProfile],
    when its material is a material object). *)
Theorem C8_gradient_z_component_is_zero
  (be : Backend) (gp : GridPhaseProfile.t) (hp : HeightProfile.t)
  (x y : list Q) (wg : option Q) (wh : Q) :
  (forall gx gy gz,
      GridPhaseProfile.get_gradient gp x y wg = Ok (gx, gy, gz) ->
      gz = List.repeat 0 (List.length x))
  /\ (forall gx gy gz,
      HeightProfile.get_gradient be hp x y wh = Ok (gx, gy, gz) ->
      gz = List.repeat 0 (List.length x))
  /\ (List.length x = List.length y ->
      exists gx gy,
        GridPhaseProfile.get_gradient gp x y wg
        = Ok (gx, gy, List.repeat 0 (List.length x)))
  /\ (List.length x = List.length y ->
      forall name str n,
        HeightProfile.material hp = MaterialObject name str n ->
        exists gx gy,
          HeightProfile.get_gradient be hp x y wh
          = Ok (gx, gy, List.repeat 0 (List.length x))).
Proof.
  split; [|split; [|split]].
  - intros gx gy gz. unfold GridPhaseProfile.get_gradient.
    destruct (GridInterpolator.gradient (GridPhaseProfile._interp gp) x y)
      as [d|e]; cbn [bind]; [|discriminate].
    intros H. injection H as _ _ <-. apply zeros_like_repeat.
  - intros gx gy gz.
    unfold HeightProfile.get_gradient, HeightProfile._interpolate_gradient.
    destruct (GridInterpolator.gradient (HeightProfile._interp hp) x y)
      as [d|e]; cbn [bind]; [|discriminate].
    destruct (material_n (HeightProfile.material hp) wh) as [n|e];
      cbn [bind]; [|discriminate].
    intros H. injection H as _ _ <-. apply zeros_like_repeat.
  - intros Hlen.
    destruct (gradient_total (GridPhaseProfile._interp gp) x y Hlen)
      as (dx & dy & Hd).
    unfold GridPhaseProfile.get_gradient. rewrite Hd. cbn [bind fst snd].
    rewrite zeros_like_repeat. do 2 eexists. reflexivity.
  - intros Hlen name str n Hm.
    destruct (gradient_total (HeightProfile._interp hp) x y Hlen)
      as (dx & dy & Hd).
    unfold HeightProfile.get_gradient, HeightProfile._interpolate_gradient.
    rewrite Hd, Hm. cbn [bind material_n fst snd].
    rewrite zeros_like_repeat. do 2 eexists. reflexivity.
Qed.

(** ** Serialization *)

Lemma grid_init_inv (be : Backend) (x y : list Q) (g : list (list Q))
  (p : GridPhaseProfile.t) :
  GridPhaseProfile.__init__ be x y g = Ok p ->
  GridPhaseProfile.x_coords p = x
  /\ GridPhaseProfile.y_coords p = y
  /\ GridPhaseProfile.phase_grid p = g.
Proof.
  unfold GridPhaseProfile.__init__.
  destruct (GridInterpolator.__init__ be x y g) as [it|e]; cbn [bind];
    [|discriminate].
  intros H. injection H as <-. repeat split.
Qed.

Lemma height_init_inv (be : Backend) (x y : list Q) (g : list (list Q))
  (m : material_attr) (p : HeightProfile.t) :
  HeightProfile.__init__ be x y g m = Ok p ->
  HeightProfile.x_coords p = x
  /\ HeightProfile.y_coords p = y
  /\ HeightProfile.height_map p = g
  /\ HeightProfile.material p = m
  /\ exists it, GridInterpolator.__init__ be x y g = Ok it.
Proof.
  unfold HeightProfile.__init__.
  destruct (GridInterpolator.__init__ be x y g) as [it|e]; cbn [bind];
    [|discriminate].
  intros H. injection H as <-. repeat split. exists it. reflexivity.
Qed.

Lemma grid_from_dict_to_dict (be : Backend) (p : GridPhaseProfile.t) :
  GridPhaseProfile.from_dict be (GridPhaseProfile.to_dict p)
  = GridPhaseProfile.__init__ be (GridPhaseProfile.x_coords p)
      (GridPhaseProfile.y_coords p) (GridPhaseProfile.phase_grid p).
Proof.
  unfold GridPhaseProfile.from_dict, GridPhaseProfile.to_dict, dict_get,
    BasePhaseProfile.to_dict.
  cbv zeta. simplify_map_eq. reflexivity.
Qed.

Lemma height_from_dict_to_dict (be : Backend) (p : HeightProfile.t) :
  HeightProfile.from_dict be (HeightProfile.to_dict be p)
  = HeightProfile.__init__ be (HeightProfile.x_coords p)
      (HeightProfile.y_coords p) (HeightProfile.height_map p)
      (PlainValue (PyStr (material_name be (HeightProfile.material p)))).
Proof.
  unfold HeightProfile.from_dict, HeightProfile.to_dict, dict_get,
    BasePhaseProfile.to_dict.
  cbv zeta. simplify_map_eq. reflexivity.
Qed.

(** C4.  A profile constructed under a backend, serialized and then
    deserialized under the same backend, yields a profile with equal
    x_coords, y_coords and grid data; a [GridPhaseProfile] comes back whole,
    a [HeightProfile] up to its material. *)
Theorem C4_from_dict_to_dict_round_trip
  (be : Backend) (x y : list Q) (g : list (list Q)) (m : material_attr)
  (gp : GridPhaseProfile.t) (hp : HeightProfile.t) :
  GridPhaseProfile.__init__ be x y g = Ok gp ->
  HeightProfile.__init__ be x y g m = Ok hp ->
  (exists gp',
      GridPhaseProfile.from_dict be (GridPhaseProfile.to_dict gp) = Ok gp'
      /\ GridPhaseProfile.x_coords gp' = GridPhaseProfile.x_coords gp
      /\ GridPhaseProfile.y_coords gp' = GridPhaseProfile.y_coords gp
      /\ GridPhaseProfile.phase_grid gp' = GridPhaseProfile.phase_grid gp
      /\ gp' = gp)
  /\ (exists hp',
      HeightProfile.from_dict be (HeightProfile.to_dict be hp) = Ok hp'
      /\ HeightProfile.x_coords hp' = HeightProfile.x_coords hp
      /\ HeightProfile.y_coords hp' = HeightProfile.y_coords hp
      /\ HeightProfile.height_map hp' = HeightProfile.height_map hp).
Proof.
  intros Hg Hh. split.
  - exists gp. rewrite grid_from_dict_to_dict.
    destruct (grid_init_inv be x y g gp Hg) as (-> & -> & ->).
    repeat split. exact Hg.
  - rewrite height_from_dict_to_dict.
    destruct (height_init_inv be x y g m hp Hh)
      as (-> & -> & -> & _ & it & Hit).
    unfold HeightProfile.__init__. rewrite Hit. cbn [bind].
    eexists. repeat split.
Qed.

Lemma C4_from_dict_to_dict_round_trip_witness :
  exists gp hp',
    GridPhaseProfile.__init__ numpy_backend [0; 1; 2; 3] [0; 1; 2; 3] ones4
    = Ok gp
    /\ GridPhaseProfile.from_dict numpy_backend (GridPhaseProfile.to_dict gp)
       = Ok gp
    /\ HeightProfile.from_dict torch_backend
         (HeightProfile.to_dict torch_backend flat_profile) = Ok hp'
    /\ HeightProfile.height_map hp' = [[3 # 10; 3 # 10]; [3 # 10; 3 # 10]].
Proof.
  destruct (GridPhaseProfile.__init__ numpy_backend [0; 1; 2; 3] [0; 1; 2; 3]
              ones4) as [gp|e] eqn:Hgp;
    [|vm_compute in Hgp; discriminate Hgp].
  destruct (HeightProfile.__init__ numpy_backend [0; 1; 2; 3] [0; 1; 2; 3]
              ones4 glass) as [hp|e] eqn:Hhp;
    [|vm_compute in Hhp; discriminate Hhp].
  destruct (C4_from_dict_to_dict_round_trip numpy_backend [0; 1; 2; 3]
              [0; 1; 2; 3] ones4 glass gp hp Hgp Hhp)
    as [(gp' & Hfrom & _ & _ & _ & ->) _].
  destruct (C4_from_dict_to_dict_round_trip torch_backend [0; 1] [0; 1]
              [[3 # 10; 3 # 10]; [3 # 10; 3 # 10]] glass
              {| GridPhaseProfile.backend := "torch";
                 GridPhaseProfile.x_coords := [0; 1];
                 GridPhaseProfile.y_coords := [0; 1];
                 GridPhaseProfile.phase_grid :=
                   [[3 # 10; 3 # 10]; [3 # 10; 3 # 10]];
                 GridPhaseProfile._interp := flat_interp |}
              flat_profile eq_refl eq_refl)
    as [_ (hp' & Hfrom' & _ & _ & Hmap)].
  exists gp, hp'. repeat split; assumption.
Defined.

Lemma plain_material_raises (be : Backend) (p : HeightProfile.t) (v : pyval)
  (x y : list Q) (w : Q) :
  HeightProfile.material p = PlainValue v ->
  raises (HeightProfile.get_phase be p x y w)
  /\ raises (HeightProfile.get_gradient be p x y w)
  /\ HeightProfile.get_paraxial_gradient be p y w = Raise AttributeError
  /\ (List.length x = List.length y ->
      HeightProfile.get_phase be p x y w = Raise AttributeError
      /\ HeightProfile.get_gradient be p x y w = Raise AttributeError).
Proof.
  intros Hm.
  unfold HeightProfile.get_phase, HeightProfile.get_gradient,
    HeightProfile.get_paraxial_gradient, HeightProfile._interpolate_height,
    HeightProfile._interpolate_gradient, raises.
  rewrite Hm. cbn [material_n].
  split; [|split; [|split]].
  - destruct (GridInterpolator.height (HeightProfile._interp p) x y);
      cbn [bind]; eexists; reflexivity.
  - destruct (GridInterpolator.gradient (HeightProfile._interp p) x y);
      cbn [bind]; eexists; reflexivity.
  - destruct (gradient_total (HeightProfile._interp p) (zeros_like y) y
                (zeros_like_length y)) as (dx & dy & ->).
    reflexivity.
  - intros Hlen.
    destruct (height_total (HeightProfile._interp p) x y Hlen) as (hs & ->).
    destruct (gradient_total (HeightProfile._interp p) x y Hlen)
      as (dx & dy & ->).
    split; reflexivity.
Qed.

(** C10.  [HeightProfile.to_dict] stores the material as a string: its
    [name] when it has one, its [str] otherwise.  [from_dict] takes the
    serialized data alone and hands that string on as the material.
    Construction of the deserialized profile succeeds; on it every
    [get_phase], [get_gradient] and [get_paraxial_gradient] call raises, with
    [AttributeError] from [material.n] whenever the interpolation itself went
    through.  Whatever the data, a profile [from_dict] returns holds a plain
    value, never a material object. *)
Theorem C10_deserialized_height_profile_has_no_material
  (be : Backend) (x y : list Q) (g : list (list Q)) (m : material_attr)
  (hp : HeightProfile.t) :
  HeightProfile.__init__ be x y g m = Ok hp ->
  HeightProfile.to_dict be hp !! "material"
  = Some (PyStr (material_name be m))
  /\ (forall name str n,
      material_name be (MaterialObject (Some name) str n) = name
      /\ material_name be (MaterialObject None str n) = str)
  /\ (exists hp',
      HeightProfile.from_dict be (HeightProfile.to_dict be hp) = Ok hp'
      /\ HeightProfile.material hp' = PlainValue (PyStr (material_name be m))
      /\ forall px py w,
          raises (HeightProfile.get_phase be hp' px py w)
          /\ raises (HeightProfile.get_gradient be hp' px py w)
          /\ HeightProfile.get_paraxial_gradient be hp' py w
             = Raise AttributeError
          /\ (List.length px = List.length py ->
              HeightProfile.get_phase be hp' px py w = Raise AttributeError
              /\ HeightProfile.get_gradient be hp' px py w
                 = Raise AttributeError))
  /\ (forall data q,
      HeightProfile.from_dict be data = Ok q ->
      exists v, HeightProfile.material q = PlainValue v).
Proof.
  intros Hh.
  destruct (height_init_inv be x y g m hp Hh) as (Hx & Hy & Hg & Hm & it & Hit).
  split; [|split; [|split]].
  - unfold HeightProfile.to_dict. cbv zeta. rewrite Hm. simplify_map_eq.
    reflexivity.
  - intros name str n. split; reflexivity.
  - rewrite height_from_dict_to_dict, Hx, Hy, Hg, Hm.
    unfold HeightProfile.__init__. rewrite Hit. cbn [bind].
    eexists. split; [reflexivity|]. split; [reflexivity|].
    intros px py w. eapply plain_material_raises. reflexivity.
  - intros data q. unfold HeightProfile.from_dict, HeightProfile.__init__.
    repeat match goal with
           | |- context [bind ?r _] =>
               destruct r; cbn [bind]; try discriminate
           end.
    intros H. injection H as <-. eexists. reflexivity.
Qed.

Lemma C10_deserialized_height_profile_has_no_material_witness :
  HeightProfile.to_dict torch_backend flat_profile !! "material"
  = Some (PyStr "glass")
  /\ exists hp',
       HeightProfile.from_dict torch_backend
         (HeightProfile.to_dict torch_backend flat_profile) = Ok hp'
       /\ HeightProfile.get_phase torch_backend hp' [1 # 2] [1 # 4] 1
          = Raise AttributeError.
Proof.
  destruct (C10_deserialized_height_profile_has_no_material torch_backend
              [0; 1] [0; 1] [[3 # 10; 3 # 10]; [3 # 10; 3 # 10]] glass
              flat_profile eq_refl)
    as (Hd & _ & (hp' & Hfrom & _ & Hcalls) & _).
  split; [exact Hd|].
  exists hp'. split; [exact Hfrom|].
  destruct (Hcalls [1 # 2] [1 # 4] 1) as (_ & _ & _ & Hsame).
  apply Hsame. reflexivity.
Defined.

(** ** Node values under the two strategies *)

Lemma last_nth (a : list Q) (d : Q) :
  List.last a d = List.nth (List.length a - 1) a d.
Proof.
  induction a as [|v a IH]; [reflexivity|].
  destruct a as [|v' a]; [reflexivity|].
  change (List.last (v' :: a) d = List.nth (List.length (v' :: a) - 0) (v :: v' :: a) d).
  rewrite IH, Nat.sub_0_r. simpl. rewrite Nat.sub_0_r. reflexivity.
Qed.

(** On an evenly spaced axis the normalization followed by the sampler's
    index computation sends the coordinate of node [j] to the index [j]. *)
Lemma unnormalize_normalize_node (a : list Q) (j : nat) :
  evenly_spaced a ->
  (2 <= List.length a)%nat ->
  (j < List.length a)%nat ->
  unnormalize
    (GridInterpolator.normalize (List.nth 0 a 0) (List.last a 0)
       (List.nth j a 0)) (List.length a)
  == inject_Z (Z.of_nat j).
Proof.
  intros (step & Hstep & Hsp) Hlen Hj.
  rewrite last_nth.
  unfold unnormalize, GridInterpolator.normalize.
  rewrite (Hsp j Hj), (Hsp (List.length a - 1)%nat ltac:(lia)).
  rewrite Nat2Z.inj_sub by lia. rewrite <- Z.add_opp_r.
  rewrite inject_Z_plus, inject_Z_opp.
  change (inject_Z (Z.of_nat 1)) with 1.
  assert (Hn : ~ inject_Z (Z.of_nat (List.length a)) - 1 == 0).
  { intros H.
    assert (H1 : inject_Z (Z.of_nat (List.length a)) == inject_Z 1)
      by (rewrite <- (Qplus_0_r (inject_Z 1)), <- H; ring).
    apply (proj1 (inject_Z_injective _ _)) in H1. lia. }
  field.
  intros H. apply Hn.
  assert (H' : (inject_Z (Z.of_nat (List.length a)) - 1) * step == 0)
    by (rewrite <- H; ring).
  apply Qmult_integral in H'. destruct H' as [H'|H']; [exact H'|contradiction].
Qed.

(** Where both pixel indices are whole, the sampler returns that pixel. *)
Lemma grid_sample_whole_index (g : list (list Q)) (gx gy : Q) (i j : Z) :
  unnormalize gx (snd (shape g)) == inject_Z j ->
  unnormalize gy (fst (shape g)) == inject_Z i ->
  grid_sample g gx gy == pixel g i j.
Proof.
  unfold grid_sample. destruct (shape g) as [h w]. cbn [fst snd]. cbv zeta.
  intros Hx Hy.
  assert (Fx : Qfloor (unnormalize gx w) = j) by (rewrite Hx; apply Qfloor_Z).
  assert (Fy : Qfloor (unnormalize gy h) = i) by (rewrite Hy; apply Qfloor_Z).
  rewrite Fx, Fy, Hx, Hy, !inject_Z_plus.
  change (inject_Z 1) with 1. ring.
Qed.

Lemma pixel_in_grid (g : list (list Q)) (i j : nat) :
  (i < fst (shape g))%nat ->
  (j < snd (shape g))%nat ->
  pixel g (Z.of_nat i) (Z.of_nat j) = List.nth j (List.nth i g []) 0.
Proof.
  unfold pixel, within_bounds. destruct (shape g) as [h w]. cbn [fst snd].
  intros Hi Hj.
  replace (0 <=? Z.of_nat i)%Z with true by (symmetry; apply Z.leb_le; lia).
  replace (Z.of_nat i <? Z.of_nat h)%Z with true
    by (symmetry; apply Z.ltb_lt; lia).
  replace (0 <=? Z.of_nat j)%Z with true by (symmetry; apply Z.leb_le; lia).
  replace (Z.of_nat j <? Z.of_nat w)%Z with true
    by (symmetry; apply Z.ltb_lt; lia).
  cbn [andb]. rewrite !Nat2Z.id. reflexivity.
Qed.

(** X1.  Under the torch backend, when both axes are evenly spaced and the
    grid has the shape (Ny, Nx), the height at every node
    (x_coords[j], y_coords[i]) is the grid value values[i, j]. *)
Theorem torch_node_exact_on_even_grid
  (be : Backend) (x y : list Q) (values : list (list Q))
  (it : GridInterpolator.t) (i j : nat) :
  get_backend be = "torch" ->
  GridInterpolator.__init__ be x y values = Ok it ->
  evenly_spaced x ->
  evenly_spaced y ->
  shape values = (List.length y, List.length x) ->
  (i < List.length y)%nat ->
  (j < List.length x)%nat ->
  exists h,
    GridInterpolator.height it [List.nth j x 0] [List.nth i y 0] = Ok [h]
    /\ h == List.nth j (List.nth i values []) 0.
Proof.
  intros Ht Hit Hex Hey Hshape Hi Hj.
  assert (Hlen : (2 <= List.length x /\ 2 <= List.length y)%nat)
    by (apply (init_torch_ok_iff be x y values Ht); exists it; exact Hit).
  rewrite (init_torch_state be x y values it Ht Hit).
  unfold GridInterpolator.height. cbn [GridInterpolator.state].
  unfold GridInterpolator._normalize_and_grid. cbn [List.map stack List.length].
  cbn [Nat.eqb combine bind List.map fst snd].
  eexists. split; [reflexivity|].
  rewrite <- (pixel_in_grid values i j)
    by (rewrite Hshape; cbn [fst snd]; assumption).
  apply grid_sample_whole_index; rewrite Hshape; cbn [fst snd];
    apply unnormalize_normalize_node; tauto || assumption.
Qed.

(** Under the numpy backend the height at a point is the fitted spline's
    value there, so it is the grid value at a node exactly when the spline
    scipy returns passes through that node. *)
Lemma numpy_node_is_spline_value
  (it : GridInterpolator.t) (spline : Spline) (xj yi : Q) :
  GridInterpolator.state it = GridInterpolator.Numpy spline ->
  GridInterpolator.height it [xj] [yi] = Ok [ev spline yi xj 0 0].
Proof. intros H. unfold GridInterpolator.height. rewrite H. reflexivity. Qed.

Lemma torch_node_exact_on_even_grid_witness :
  exists it h,
    GridInterpolator.__init__ torch_backend [0; 1; 2] [0; 2]
      [[1; 2; 3]; [4; 5; 6]] = Ok it
    /\ GridInterpolator.height it [2] [2] = Ok [h]
    /\ h == 6.
Proof.
  assert (Hx : evenly_spaced [0; 1; 2]).
  { exists 1. split; [discriminate|].
    intros k Hk. destruct k as [|[|[|k]]]; simpl in Hk; try lia; reflexivity. }
  assert (Hy : evenly_spaced [0; 2]).
  { exists 2. split; [discriminate|].
    intros k Hk. destruct k as [|[|k]]; simpl in Hk; try lia; reflexivity. }
  destruct (torch_node_exact_on_even_grid torch_backend [0; 1; 2] [0; 2]
              [[1; 2; 3]; [4; 5; 6]]
              {| GridInterpolator.backend := "torch";
                 GridInterpolator.x_coords := [0; 1; 2];
                 GridInterpolator.y_coords := [0; 2];
                 GridInterpolator.grid := [[1; 2; 3]; [4; 5; 6]];
                 GridInterpolator.state :=
                   GridInterpolator.Torch 0 2 0 2 [[1; 2; 3]; [4; 5; 6]]
                     (1 - 0) (2 - 0) |}
              1%nat 2%nat eq_refl eq_refl Hx Hy eq_refl
              ltac:(simpl; lia) ltac:(simpl; lia)) as (h & Hh & Hv).
  do 2 eexists. split; [reflexivity|]. split; [exact Hh|exact Hv].
Defined.

(** ** The corners of the coordinate range, under torch *)

Lemma unnormalize_normalize_lo (lo hi : Q) (size : nat) :
  unnormalize (GridInterpolator.normalize lo hi lo) size == inject_Z 0.
Proof.
  unfold unnormalize, GridInterpolator.normalize, Qdiv.
  change (inject_Z 0) with 0. ring.
Qed.

Lemma unnormalize_normalize_hi (lo hi : Q) (size : nat) :
  ~ hi == lo ->
  (1 <= size)%nat ->
  unnormalize (GridInterpolator.normalize lo hi hi) size
  == inject_Z (Z.of_nat (size - 1)).
Proof.
  intros Hne Hsize.
  rewrite Nat2Z.inj_sub by lia. rewrite <- Z.add_opp_r.
  rewrite inject_Z_plus, inject_Z_opp.
  change (inject_Z (Z.of_nat 1)) with 1.
  unfold unnormalize, GridInterpolator.normalize. field.
  intros H. apply Hne. rewrite <- (Qplus_0_r lo), <- H. ring.
Qed.

(** X2.  Under the torch backend the four corners of the coordinate range are
    sampled at the four corner values of the grid, however the interior
    coordinates are spaced; it takes a grid of shape (Ny, Nx) and, on each
    axis, a last coordinate different from the first. *)
Theorem torch_corner_values
  (be : Backend) (x y : list Q) (values : list (list Q))
  (it : GridInterpolator.t) :
  get_backend be = "torch" ->
  GridInterpolator.__init__ be x y values = Ok it ->
  shape values = (List.length y, List.length x) ->
  ~ List.last x 0 == List.nth 0 x 0 ->
  ~ List.last y 0 == List.nth 0 y 0 ->
  exists h00 h01 h10 h11,
    GridInterpolator.height it
      [List.nth 0 x 0; List.last x 0; List.nth 0 x 0; List.last x 0]
      [List.nth 0 y 0; List.nth 0 y 0; List.last y 0; List.last y 0]
    = Ok [h00; h01; h10; h11]
    /\ h00 == List.nth 0 (List.nth 0 values []) 0
    /\ h01 == List.nth (List.length x - 1) (List.nth 0 values []) 0
    /\ h10 == List.nth 0 (List.nth (List.length y - 1) values []) 0
    /\ h11 == List.nth (List.length x - 1)
                (List.nth (List.length y - 1) values []) 0.
Proof.
  intros Ht Hit Hshape Hx Hy.
  assert (Hlen : (2 <= List.length x /\ 2 <= List.length y)%nat)
    by (apply (init_torch_ok_iff be x y values Ht); exists it; exact Hit).
  rewrite (init_torch_state be x y values it Ht Hit).
  unfold GridInterpolator.height. cbn [GridInterpolator.state].
  unfold GridInterpolator._normalize_and_grid.
  cbn [List.map stack List.length Nat.eqb combine bind fst snd].
  do 4 eexists. split; [reflexivity|].
  assert (H0y : (0 < fst (shape values))%nat) by (rewrite Hshape; simpl; lia).
  assert (H0x : (0 < snd (shape values))%nat) by (rewrite Hshape; simpl; lia).
  assert (H1y : (List.length y - 1 < fst (shape values))%nat)
    by (rewrite Hshape; simpl; lia).
  assert (H1x : (List.length x - 1 < snd (shape values))%nat)
    by (rewrite Hshape; simpl; lia).
  repeat split.
  - rewrite <- (pixel_in_grid values 0 0 H0y H0x).
    apply grid_sample_whole_index; apply unnormalize_normalize_lo.
  - rewrite <- (pixel_in_grid values 0 (List.length x - 1) H0y H1x).
    apply grid_sample_whole_index;
      [rewrite Hshape; cbn [snd]; apply unnormalize_normalize_hi;
         [exact Hx|lia]
      |apply unnormalize_normalize_lo].
  - rewrite <- (pixel_in_grid values (List.length y - 1) 0 H1y H0x).
    apply grid_sample_whole_index;
      [apply unnormalize_normalize_lo
      |rewrite Hshape; cbn [fst]; apply unnormalize_normalize_hi;
         [exact Hy|lia]].
  - rewrite <- (pixel_in_grid values (List.length y - 1) (List.length x - 1)
                  H1y H1x).
    apply grid_sample_whole_index; rewrite Hshape; cbn [fst snd];
      apply unnormalize_normalize_hi; (exact Hx || exact Hy || lia).
Qed.

Lemma torch_corner_values_witness :
  exists it h00 h01 h10 h11,
    GridInterpolator.__init__ torch_backend [0; 1; 3] [0; 5]
      [[1; 2; 3]; [4; 5; 6]] = Ok it
    /\ GridInterpolator.height it [0; 3; 0; 3] [0; 0; 5; 5]
       = Ok [h00; h01; h10; h11]
    /\ h00 == 1 /\ h01 == 3 /\ h10 == 4 /\ h11 == 6.
Proof.
  destruct (torch_corner_values torch_backend [0; 1; 3] [0; 5]
              [[1; 2; 3]; [4; 5; 6]]
              {| GridInterpolator.backend := "torch";
                 GridInterpolator.x_coords := [0; 1; 3];
                 GridInterpolator.y_coords := [0; 5];
                 GridInterpolator.grid := [[1; 2; 3]; [4; 5; 6]];
                 GridInterpolator.state :=
                   GridInterpolator.Torch 0 3 0 5 [[1; 2; 3]; [4; 5; 6]]
                     (1 - 0) (5 - 0) |}
              eq_refl eq_refl eq_refl ltac:(discriminate) ltac:(discriminate))
    as (h00 & h01 & h10 & h11 & Hh & H00 & H01 & H10 & H11).
  eexists. exists h00, h01, h10, h11.
  split; [reflexivity|]. split; [exact Hh|]. repeat split; assumption.
Defined.

(** ** Query arrays: lengths, broadcasting *)

(** X3.  Height and gradient keep the length of the query arrays: for x and y of
    equal length both calls return, under either strategy, arrays with as
    many entries as x. *)
Theorem evaluation_keeps_length
  (it : GridInterpolator.t) (x y : list Q) :
  List.length x = List.length y ->
  exists hs dx dy,
    GridInterpolator.height it x y = Ok hs
    /\ GridInterpolator.gradient it x y = Ok (dx, dy)
    /\ List.length hs = List.length x
    /\ List.length dx = List.length x
    /\ List.length dy = List.length x.
Proof.
  intros H. unfold GridInterpolator.height, GridInterpolator.gradient.
  destruct (GridInterpolator.state it) as [s|xmin xmax ymin ymax g4 dx dy].
  - rewrite broadcast_same_length by (symmetry; exact H). cbn [bind].
    do 3 eexists. split; [reflexivity|]. split; [reflexivity|].
    rewrite !length_map, length_combine. lia.
  - unfold GridInterpolator._normalize_and_grid.
    rewrite stack_same_length by (rewrite !length_map; exact H). cbn [bind].
    do 3 eexists. split; [reflexivity|]. split; [reflexivity|].
    rewrite !length_map, length_combine, !length_map. lia.
Qed.

Lemma evaluation_keeps_length_witness :
  exists hs dx dy,
    GridInterpolator.height flat_interp [0; 1 # 2; 1] [1; 1 # 3; 0] = Ok hs
    /\ GridInterpolator.gradient flat_interp [0; 1 # 2; 1] [1; 1 # 3; 0]
       = Ok (dx, dy)
    /\ List.length hs = 3%nat.
Proof.
  destruct (evaluation_keeps_length flat_interp [0; 1 # 2; 1] [1; 1 # 3; 0]
              eq_refl) as (hs & dx & dy & Hh & Hg & Hl & _).
  exists hs, dx, dy. split; [exact Hh|]. split; [exact Hg|exact Hl].
Defined.

(** X4.  The two strategies treat query arrays of different lengths
    differently.
    Under torch the calls return exactly when x and y have the same length
    and raise [RuntimeError] otherwise, a single point against many
    included.  Under numpy a single x is paired with every y, and a single y
    with every x. *)
Theorem query_length_mismatch
  (it : GridInterpolator.t) (x y : list Q) :
  (forall xmin xmax ymin ymax g dx dy,
      GridInterpolator.state it
      = GridInterpolator.Torch xmin xmax ymin ymax g dx dy ->
      ((exists hs, GridInterpolator.height it x y = Ok hs)
       <-> List.length x = List.length y)
      /\ (List.length x <> List.length y ->
          GridInterpolator.height it x y = Raise RuntimeError
          /\ GridInterpolator.gradient it x y = Raise RuntimeError))
  /\ (forall spline x0 y0,
      GridInterpolator.state it = GridInterpolator.Numpy spline ->
      (List.length y <> 1%nat ->
       GridInterpolator.height it [x0] y
       = Ok (List.map (fun yk => ev spline yk x0 0 0) y))
      /\ (List.length x <> 1%nat ->
          GridInterpolator.height it x [y0]
          = Ok (List.map (fun xk => ev spline y0 xk 0 0) x))).
Proof.
  split.
  - intros xmin xmax ymin ymax g dx dy Hs.
    unfold GridInterpolator.height, GridInterpolator.gradient. rewrite Hs.
    unfold GridInterpolator._normalize_and_grid, stack.
    rewrite !length_map.
    destruct (Nat.eqb_spec (List.length x) (List.length y)) as [E|NE];
      cbn [bind].
    + split; [|contradiction].
      split; [intros _; exact E|intros _; eexists; reflexivity].
    + split; [|intros _; split; reflexivity].
      split; [intros [hs Hh]; discriminate Hh|intros E; contradiction].
  - intros spline x0 y0 Hs. unfold GridInterpolator.height. rewrite Hs.
    split; intros Hne.
    + unfold broadcast. cbn [List.length].
      destruct (Nat.eqb_spec (List.length y) 1) as [E|_]; [contradiction|].
      destruct y as [|ya [|yb y']]; cbn [bind];
        [reflexivity|exfalso; apply Hne; reflexivity|].
      rewrite List.map_map. reflexivity.
    + unfold broadcast. cbn [List.length].
      destruct (Nat.eqb_spec 1 (List.length x)) as [E|_];
        [symmetry in E; contradiction|].
      destruct x as [|xa [|xb x']]; cbn [bind];
        [reflexivity|exfalso; apply Hne; reflexivity|].
      rewrite List.map_map. reflexivity.
Qed.

(** ** What the torch strategy reads of the coordinates *)

(** X5.  Under the torch backend, height and gradient depend on the
    coordinate axes only through the first and the last coordinate of each: two
    interpolators over the same grid whose axes share these give the same
    results, whatever lies between. *)
Theorem torch_reads_axis_ends_only
  (be : Backend) (x y x' y' : list Q) (g : list (list Q))
  (it it' : GridInterpolator.t) (px py : list Q) :
  get_backend be = "torch" ->
  GridInterpolator.__init__ be x y g = Ok it ->
  GridInterpolator.__init__ be x' y' g = Ok it' ->
  List.nth 0 x 0 = List.nth 0 x' 0 ->
  List.last x 0 = List.last x' 0 ->
  List.nth 0 y 0 = List.nth 0 y' 0 ->
  List.last y 0 = List.last y' 0 ->
  GridInterpolator.height it px py = GridInterpolator.height it' px py
  /\ GridInterpolator.gradient it px py = GridInterpolator.gradient it' px py.
Proof.
  intros Ht Hit Hit' Hx0 Hx1 Hy0 Hy1.
  rewrite (init_torch_state be x y g it Ht Hit).
  rewrite (init_torch_state be x' y' g it' Ht Hit').
  unfold GridInterpolator.height, GridInterpolator.gradient.
  cbn [GridInterpolator.state]. rewrite Hx0, Hx1, Hy0, Hy1.
  split; reflexivity.
Qed.

Lemma torch_reads_axis_ends_only_witness :
  exists it it',
    GridInterpolator.__init__ torch_backend [0; 1; 3] [0; 1]
      [[0; 1; 3]; [0; 1; 3]] = Ok it
    /\ GridInterpolator.__init__ torch_backend [0; 2; 3] [0; 1]
         [[0; 1; 3]; [0; 1; 3]] = Ok it'
    /\ GridInterpolator.height it [1] [0] = GridInterpolator.height it' [1] [0].
Proof.
  do 2 eexists. split; [reflexivity|]. split; [reflexivity|].
  apply (torch_reads_axis_ends_only torch_backend [0; 1; 3] [0; 1]
           [0; 2; 3] [0; 1] [[0; 1; 3]; [0; 1; 3]] _ _ [1] [0]
           eq_refl eq_refl eq_refl eq_refl eq_refl eq_refl eq_refl).
Defined.

(** ** Gradient against height, under torch *)




(** ** Deserialization *)

(** X9.  [from_dict] never reads the [phase_type] entry: setting it to any value,
    or removing it, leaves the result of either variant's [from_dict]
    unchanged. *)
Theorem from_dict_ignores_phase_type
  (be : Backend) (data : gmap string pyval) (v : pyval) :
  GridPhaseProfile.from_dict be (<[ "phase_type" := v ]> data)
  = GridPhaseProfile.from_dict be data
  /\ GridPhaseProfile.from_dict be (delete "phase_type" data)
     = GridPhaseProfile.from_dict be data
  /\ HeightProfile.from_dict be (<[ "phase_type" := v ]> data)
     = HeightProfile.from_dict be data
  /\ HeightProfile.from_dict be (delete "phase_type" data)
     = HeightProfile.from_dict be data.
Proof.
  unfold GridPhaseProfile.from_dict, HeightProfile.from_dict, dict_get.
  rewrite !lookup_insert_ne by discriminate.
  rewrite !lookup_delete_ne by discriminate.
  repeat split.
Qed.

(** X10.  The serialized forms of the two variants are not
    interchangeable:
    [GridPhaseProfile.from_dict] on a serialized [HeightProfile] raises
    [KeyError] (there is no [phase_grid] entry), and
    [HeightProfile.from_dict] on a serialized [GridPhaseProfile] raises
    [KeyError] (there is no [height_map] entry). *)
Theorem from_dict_of_other_variant
  (be : Backend) (gp : GridPhaseProfile.t) (hp : HeightProfile.t) :
  GridPhaseProfile.from_dict be (HeightProfile.to_dict be hp) = Raise KeyError
  /\ HeightProfile.from_dict be (GridPhaseProfile.to_dict gp) = Raise KeyError.
Proof.
  unfold GridPhaseProfile.from_dict, HeightProfile.from_dict,
    GridPhaseProfile.to_dict, HeightProfile.to_dict, dict_get,
    BasePhaseProfile.to_dict.
  cbv zeta. split; simplify_map_eq; reflexivity.
Qed.

(** X11.  On data whose [x_coords] and [y_coords] entries are flat lists and
    whose [phase_grid] entry is a nested list, as [to_dict] writes them,
    [GridPhaseProfile.from_dict] is the constructor applied to these three
    entries, whatever else the data holds; a profile it returns has them as
    its [x_coords], [y_coords] and [phase_grid], and serializing that
    profile and reading it back yields the same profile. *)
Theorem grid_from_dict_reads_the_data
  (be : Backend) (data : gmap string pyval) (x y : list Q)
  (g : list (list Q)) :
  data !! "x_coords" = Some (PyList x) ->
  data !! "y_coords" = Some (PyList y) ->
  data !! "phase_grid" = Some (PyNested g) ->
  GridPhaseProfile.from_dict be data = GridPhaseProfile.__init__ be x y g
  /\ forall gp, GridPhaseProfile.from_dict be data = Ok gp ->
       GridPhaseProfile.x_coords gp = x
       /\ GridPhaseProfile.y_coords gp = y
       /\ GridPhaseProfile.phase_grid gp = g
       /\ GridPhaseProfile.from_dict be (GridPhaseProfile.to_dict gp) = Ok gp.
Proof.
  intros Hx Hy Hg.
  assert (E : GridPhaseProfile.from_dict be data
              = GridPhaseProfile.__init__ be x y g).
  { unfold GridPhaseProfile.from_dict, dict_get. rewrite Hx, Hy, Hg.
    reflexivity. }
  split; [exact E|].
  intros gp H. rewrite E in H. rewrite grid_from_dict_to_dict.
  destruct (grid_init_inv be x y g gp H) as (-> & -> & ->).
  repeat split. exact H.
Qed.

Lemma grid_from_dict_reads_the_data_witness :
  exists gp,
    GridPhaseProfile.from_dict torch_backend
      (<[ "phase_grid" := PyNested [[1; 2]; [3; 4]] ]>
         (<[ "y_coords" := PyList [0; 1] ]>
            {[ "x_coords" := PyList [0; 1] ]})) = Ok gp
    /\ GridPhaseProfile.phase_grid gp = [[1; 2]; [3; 4]]
    /\ GridPhaseProfile.from_dict torch_backend (GridPhaseProfile.to_dict gp)
       = Ok gp.
Proof.
  pose proof (grid_from_dict_reads_the_data torch_backend
                (<[ "phase_grid" := PyNested [[1; 2]; [3; 4]] ]>
                   (<[ "y_coords" := PyList [0; 1] ]>
                      {[ "x_coords" := PyList [0; 1] ]}))
                [0; 1] [0; 1] [[1; 2]; [3; 4]]) as W.
  destruct W as [E Hinv]; [vm_compute; reflexivity ..|].
  eexists. split; [rewrite E; reflexivity|].
  split; [reflexivity|].
  apply Hinv. rewrite E. reflexivity.
Defined.

(** X12.  On data whose [x_coords] and [y_coords] entries are flat lists and
    whose [height_map] entry is a nested list, as [to_dict] writes them,
    [HeightProfile.from_dict] is the constructor applied to these three
    entries and, as material, to the [material] entry as it stands.  A
    profile it returns holds them; and when the material entry is a string,
    serializing that profile and reading it back yields the same profile:
    after the first round trip the serialized form is stable. *)
Theorem height_from_dict_reads_the_data
  (be : Backend) (data : gmap string pyval) (x y : list Q)
  (g : list (list Q)) (v : pyval) :
  data !! "x_coords" = Some (PyList x) ->
  data !! "y_coords" = Some (PyList y) ->
  data !! "height_map" = Some (PyNested g) ->
  data !! "material" = Some v ->
  HeightProfile.from_dict be data
  = HeightProfile.__init__ be x y g (PlainValue v)
  /\ forall hp, HeightProfile.from_dict be data = Ok hp ->
       HeightProfile.x_coords hp = x
       /\ HeightProfile.y_coords hp = y
       /\ HeightProfile.height_map hp = g
       /\ HeightProfile.material hp = PlainValue v
       /\ (forall s, v = PyStr s ->
           HeightProfile.from_dict be (HeightProfile.to_dict be hp) = Ok hp).
Proof.
  intros Hx Hy Hg Hv.
  assert (E : HeightProfile.from_dict be data
              = HeightProfile.__init__ be x y g (PlainValue v)).
  { unfold HeightProfile.from_dict, dict_get. rewrite Hx, Hy, Hg, Hv.
    reflexivity. }
  split; [exact E|].
  intros hp H. rewrite E in H. rewrite height_from_dict_to_dict.
  destruct (height_init_inv be x y g (PlainValue v) hp H)
    as (-> & -> & -> & Hm & _).
  split; [reflexivity|]. split; [reflexivity|]. split; [reflexivity|].
  split; [exact Hm|].
  intros s ->. rewrite Hm. exact H.
Qed.

Lemma height_from_dict_reads_the_data_witness :
  exists hp,
    HeightProfile.from_dict torch_backend
      (HeightProfile.to_dict torch_backend flat_profile) = Ok hp
    /\ HeightProfile.material hp = PlainValue (PyStr "glass")
    /\ HeightProfile.from_dict torch_backend
         (HeightProfile.to_dict torch_backend hp) = Ok hp.
Proof.
  pose proof (height_from_dict_reads_the_data torch_backend
                (HeightProfile.to_dict torch_backend flat_profile)
                [0; 1] [0; 1] [[3 # 10; 3 # 10]; [3 # 10; 3 # 10]]
                (PyStr "glass")) as W.
  destruct W as [E Hinv]; [vm_compute; reflexivity ..|].
  eexists. split; [rewrite E; reflexivity|].
  split; [reflexivity|].
  destruct (Hinv _ ltac:(rewrite E; reflexivity)) as (_ & _ & _ & _ & Hstable).
  apply (Hstable "glass"). reflexivity.
Defined.

(** ** [MTFvsField._generate_data] *)

Lemma getitem_in_range (a : list Q) (i : nat) :
  (i < List.length a)%nat -> getitem a i = Ok (List.nth i a 0).
Proof.
  intros H. unfold getitem.
  rewrite (List.nth_error_nth' a 0 H). reflexivity.
Qed.

Lemma getitem_out_of_range (a : list Q) (i : nat) :
  (List.length a <= i)%nat -> getitem a i = Raise IndexError.
Proof.
  intros H. unfold getitem.
  rewrite (proj2 (List.nth_error_None a i) H). reflexivity.
Qed.

(** One pass of the loop over [i_freq], from [k] on, for [m] indices. *)
Lemma record_mtfs_loop (mtfs : list Q) (m k : nat)
  (rs : list MTFvsField.curves) :
  (k + m <= List.length rs)%nat ->
  (2 * (k + m) <= List.length mtfs)%nat ->
  for_each (List.seq k m) (MTFvsField.record_mtfs mtfs) rs
  = Ok (imap (fun i c =>
                if (k <=? i)%nat && (i <? k + m)%nat
                then {| MTFvsField.tangential :=
                          MTFvsField.tangential c ++ [List.nth (2 * i) mtfs 0];
                        MTFvsField.sagittal :=
                          MTFvsField.sagittal c
                          ++ [List.nth (2 * i + 1) mtfs 0] |}
                else c) rs).
Proof.
  revert k rs. induction m as [|m IH]; intros k rs Hrs Hm.
  - cbn [List.seq for_each]. f_equal. apply list_eq. intros i.
    rewrite list_lookup_imap. destruct (rs !! i) as [c|]; [|reflexivity].
    destruct (Nat.leb_spec k i), (Nat.ltb_spec i (k + 0));
      try lia; reflexivity.
  - cbn [List.seq for_each]. unfold MTFvsField.record_mtfs at 1.
    destruct (lookup_lt_is_Some_2 rs k ltac:(lia)) as [c Hc]. rewrite Hc.
    rewrite (getitem_in_range mtfs (2 * k)) by lia.
    rewrite (getitem_in_range mtfs (2 * k + 1)) by lia.
    cbn [bind]. rewrite IH by (rewrite ?length_insert; lia).
    f_equal. apply list_eq. intros i. rewrite !list_lookup_imap.
    destruct (decide (i = k)) as [->|Hik].
    + rewrite list_lookup_insert_eq by lia. rewrite Hc.
      destruct (Nat.leb_spec (S k) k), (Nat.leb_spec k k),
        (Nat.ltb_spec k (k + S m)); try lia; reflexivity.
    + rewrite list_lookup_insert_ne by congruence.
      destruct (rs !! i) as [c'|]; [|reflexivity].
      destruct (Nat.leb_spec k i), (Nat.leb_spec (S k) i),
        (Nat.ltb_spec i (k + S m)), (Nat.ltb_spec i (S k + m));
        try lia; reflexivity.
Qed.

Lemma record_mtfs_all (mtfs : list Q) (rs : list MTFvsField.curves) :
  (2 * List.length rs <= List.length mtfs)%nat ->
  for_each (List.seq 0 (List.length rs)) (MTFvsField.record_mtfs mtfs) rs
  = Ok (with_sample mtfs rs).
Proof.
  intros H. rewrite record_mtfs_loop by lia. f_equal. unfold with_sample.
  apply imap_ext. intros i c Hi.
  pose proof (lookup_lt_Some rs i c Hi) as Hlt.
  destruct (Nat.leb_spec 0 i), (Nat.ltb_spec i (0 + List.length rs));
    try lia; reflexivity.
Qed.

Lemma length_curves_over (n : nat) (mtf : Q * Q -> list Q)
  (fields : list (Q * Q)) :
  List.length (curves_over n mtf fields) = n.
Proof. unfold curves_over. rewrite length_map, length_seq. reflexivity. Qed.

Lemma lookup_curves_over (n : nat) (mtf : Q * Q -> list Q)
  (fields : list (Q * Q)) (i : nat) :
  (i < n)%nat ->
  curves_over n mtf fields !! i
  = Some {| MTFvsField.tangential :=
              List.map (fun field => List.nth (2 * i) (mtf field) 0) fields;
            MTFvsField.sagittal :=
              List.map (fun field => List.nth (2 * i + 1) (mtf field) 0)
                fields |}.
Proof.
  intros Hi. unfold curves_over.
  change (List.map ?f (List.seq 0 n)) with (f <$> List.seq 0 n).
  rewrite list_lookup_fmap, lookup_seq_lt by exact Hi. reflexivity.
Qed.

Lemma with_sample_curves_over (n : nat) (mtf : Q * Q -> list Q)
  (done : list (Q * Q)) (field : Q * Q) :
  with_sample (mtf field) (curves_over n mtf done)
  = curves_over n mtf (done ++ [field]).
Proof.
  apply list_eq. intros i. unfold with_sample. rewrite list_lookup_imap.
  destruct (Nat.lt_ge_cases i n) as [Hi|Hi].
  - rewrite !lookup_curves_over by exact Hi. cbn.
    rewrite !List.map_app. reflexivity.
  - rewrite !lookup_ge_None_2 by (rewrite length_curves_over; exact Hi).
    reflexivity.
Qed.

Lemma empty_curves (A : Type) (l : list A) (mtf : Q * Q -> list Q) :
  List.map (fun _ => {| MTFvsField.tangential := [];
                        MTFvsField.sagittal := [] |}) l
  = curves_over (List.length l) mtf [].
Proof.
  unfold curves_over. generalize 0%nat.
  induction l as [|a l IH]; intros start; [reflexivity|].
  cbn [List.map List.length List.seq]. f_equal. apply IH.
Qed.

Section GenerateData.

Context {Optic : Type}.
Variable linspace : Q -> Q -> nat -> list Q.
Variable calculate_mtf :
  Optic -> Q * Q -> Q -> nat -> list (Q * Q) -> result (list Q).
Variable self : @MTFvsField.t Optic.

Let n_freq : nat := List.length (MTFvsField.frequencies self).

Lemma sample_fields_loop (wl : Q) (mtf : Q * Q -> list Q)
  (fields done : list (Q * Q)) :
  (forall field, In field fields ->
     calculate_mtf (MTFvsField.optic self) field wl (MTFvsField.num_rays self)
       (MTFvsField.freqs_to_calc (MTFvsField.frequencies self))
     = Ok (mtf field)
     /\ (2 * n_freq <= List.length (mtf field))%nat) ->
  for_each fields (MTFvsField.sample_field calculate_mtf self wl)
    (curves_over n_freq mtf done)
  = Ok (curves_over n_freq mtf (done ++ fields)).
Proof.
  revert done. induction fields as [|field fields IH]; intros done H.
  - rewrite List.app_nil_r. reflexivity.
  - cbn [for_each]. unfold MTFvsField.sample_field at 1.
    destruct (H field (or_introl eq_refl)) as [-> Hlen]. cbn [bind].
    fold n_freq.
    rewrite <- (length_curves_over n_freq mtf done) at 1.
    rewrite record_mtfs_all by (rewrite length_curves_over; exact Hlen).
    cbn [bind]. rewrite with_sample_curves_over.
    rewrite IH by (intros f Hf; apply H; right; exact Hf).
    rewrite <- List.app_assoc. reflexivity.
Qed.

Lemma for_list_all_ok (A B : Type) (f : A -> result B) (g : A -> B)
  (l : list A) :
  (forall a, In a l -> f a = Ok (g a)) ->
  for_list f l = Ok (List.map g l).
Proof.
  induction l as [|a l IH]; intros H; [reflexivity|].
  cbn [for_list List.map]. rewrite (H a (or_introl eq_refl)). cbn [bind].
  rewrite IH by (intros b Hb; apply H; right; exact Hb). reflexivity.
Qed.

(** When every sampling call returns at least two values per frequency,
    [_generate_data] returns the field coordinates and, per wavelength, the
    curves read off the values computed at each field. *)
Lemma generate_data_closed_form (mtf : Q -> Q * Q -> list Q) :
  let fields :=
    List.map (fun Hy => (0, Hy))
      (linspace 0 1 (MTFvsField.num_fields self)) in
  (forall wl field,
     In wl (MTFvsField.wavelengths self) -> In field fields ->
     calculate_mtf (MTFvsField.optic self) field wl (MTFvsField.num_rays self)
       (MTFvsField.freqs_to_calc (MTFvsField.frequencies self))
     = Ok (mtf wl field)
     /\ (2 * n_freq <= List.length (mtf wl field))%nat) ->
  MTFvsField._generate_data linspace calculate_mtf self
  = Ok (fields,
        List.map (fun wl => curves_over n_freq (mtf wl) fields)
          (MTFvsField.wavelengths self)).
Proof.
  intros fields H. unfold MTFvsField._generate_data. fold fields.
  rewrite (for_list_all_ok _ _ _
             (fun wl => curves_over n_freq (mtf wl) fields)); [reflexivity|].
  intros wl Hwl. unfold MTFvsField.sample_wavelength.
  rewrite (empty_curves _ (MTFvsField.frequencies self) (mtf wl)).
  fold n_freq. apply (sample_fields_loop wl (mtf wl) fields []).
  intros field Hf. apply H; assumption.
Qed.

End GenerateData.

(** X15.  The shape of the data: when every sampling call returns at least
    two values per frequency, and [linspace] returns as many values as asked
    for, [_generate_data] returns one entry per wavelength,
    each holding one pair of curves per frequency, each curve with
    [num_fields] values; the field coordinates number [num_fields] too. *)
Theorem generate_data_shape
  (Optic : Type) (linspace : Q -> Q -> nat -> list Q)
  (calculate_mtf :
     Optic -> Q * Q -> Q -> nat -> list (Q * Q) -> result (list Q))
  (self : @MTFvsField.t Optic) (mtf : Q -> Q * Q -> list Q) :
  List.length (linspace 0 1 (MTFvsField.num_fields self))
  = MTFvsField.num_fields self ->
  (forall wl field,
     In wl (MTFvsField.wavelengths self) ->
     In field (List.map (fun Hy => (0, Hy))
                 (linspace 0 1 (MTFvsField.num_fields self))) ->
     calculate_mtf (MTFvsField.optic self) field wl (MTFvsField.num_rays self)
       (MTFvsField.freqs_to_calc (MTFvsField.frequencies self))
     = Ok (mtf wl field)
     /\ (2 * List.length (MTFvsField.frequencies self)
         <= List.length (mtf wl field))%nat) ->
  exists coords results,
    MTFvsField._generate_data linspace calculate_mtf self = Ok (coords, results)
    /\ List.length coords = MTFvsField.num_fields self
    /\ List.length results = List.length (MTFvsField.wavelengths self)
    /\ Forall
         (fun wl_results =>
            List.length wl_results = List.length (MTFvsField.frequencies self)
            /\ Forall
                 (fun c =>
                    List.length (MTFvsField.tangential c)
                    = MTFvsField.num_fields self
                    /\ List.length (MTFvsField.sagittal c)
                       = MTFvsField.num_fields self)
                 wl_results)
         results.
Proof.
  intros Hlin H.
  rewrite (generate_data_closed_form linspace calculate_mtf self mtf H).
  do 2 eexists. split; [reflexivity|].
  split; [rewrite length_map; exact Hlin|].
  split; [apply length_map|].
  apply List.Forall_forall. intros wl_results Hin.
  apply List.in_map_iff in Hin. destruct Hin as (wl & <- & _).
  split; [apply length_curves_over|].
  apply List.Forall_forall. intros c Hc. unfold curves_over in Hc.
  apply List.in_map_iff in Hc. destruct Hc as (i & <- & _).
  cbn. rewrite !length_map. split; exact Hlin.
Qed.

Lemma generate_data_shape_witness :
  exists coords results,
    MTFvsField._generate_data sample_linspace sample_calculate_mtf
      sample_analysis = Ok (coords, results)
    /\ List.length coords = 3%nat
    /\ List.length results = 1%nat.
Proof.
  destruct (generate_data_shape unit sample_linspace sample_calculate_mtf
              sample_analysis
              (fun wl field =>
                 List.map (fun fq => 1 / (1 + fst fq + 2 * snd fq + snd field))
                   (MTFvsField.freqs_to_calc [10; 20]))
              eq_refl
              ltac:(intros wl field _ _; split; [reflexivity|simpl; lia]))
    as (coords & results & Hd & Hc & Hr & _).
  exists coords, results. split; [exact Hd|]. split; [exact Hc|exact Hr].
Defined.

(** X16.  The entries of the data: when every sampling call returns at
    least two values per frequency, the curves of wavelength number w and
    frequency number i hold, at field number k, the values number 2i
    (tangential) and 2i+1 (sagittal) that the sampler returned for that
    wavelength and field. *)
Theorem generate_data_entries
  (Optic : Type) (linspace : Q -> Q -> nat -> list Q)
  (calculate_mtf :
     Optic -> Q * Q -> Q -> nat -> list (Q * Q) -> result (list Q))
  (self : @MTFvsField.t Optic) (mtf : Q -> Q * Q -> list Q)
  (w i k : nat) (wl : Q) (field : Q * Q) :
  (forall wl field,
     In wl (MTFvsField.wavelengths self) ->
     In field (List.map (fun Hy => (0, Hy))
                 (linspace 0 1 (MTFvsField.num_fields self))) ->
     calculate_mtf (MTFvsField.optic self) field wl (MTFvsField.num_rays self)
       (MTFvsField.freqs_to_calc (MTFvsField.frequencies self))
     = Ok (mtf wl field)
     /\ (2 * List.length (MTFvsField.frequencies self)
         <= List.length (mtf wl field))%nat) ->
  MTFvsField.wavelengths self !! w = Some wl ->
  (i < List.length (MTFvsField.frequencies self))%nat ->
  List.map (fun Hy => (0, Hy)) (linspace 0 1 (MTFvsField.num_fields self)) !! k
  = Some field ->
  exists coords results wl_results c,
    MTFvsField._generate_data linspace calculate_mtf self = Ok (coords, results)
    /\ coords !! k = Some field
    /\ results !! w = Some wl_results
    /\ wl_results !! i = Some c
    /\ MTFvsField.tangential c !! k = Some (List.nth (2 * i) (mtf wl field) 0)
    /\ MTFvsField.sagittal c !! k
       = Some (List.nth (2 * i + 1) (mtf wl field) 0).
Proof.
  intros H Hw Hi Hk.
  rewrite (generate_data_closed_form linspace calculate_mtf self mtf H).
  do 4 eexists. split; [reflexivity|]. split; [exact Hk|].
  split.
  { change (List.map ?f (MTFvsField.wavelengths self))
      with (f <$> MTFvsField.wavelengths self).
    rewrite list_lookup_fmap, Hw. reflexivity. }
  split; [apply lookup_curves_over; exact Hi|].
  cbn [MTFvsField.tangential MTFvsField.sagittal].
  split.
  - change (List.map ?f ?l) with (f <$> l) at 1.
    rewrite list_lookup_fmap, Hk. reflexivity.
  - change (List.map ?f ?l) with (f <$> l) at 1.
    rewrite list_lookup_fmap, Hk. reflexivity.
Qed.

Lemma generate_data_entries_witness :
  exists coords results wl_results c Hy,
    MTFvsField._generate_data sample_linspace sample_calculate_mtf
      sample_analysis = Ok (coords, results)
    /\ coords !! 2%nat = Some (0, Hy)
    /\ Hy == 1
    /\ results !! 0%nat = Some wl_results
    /\ wl_results !! 1%nat = Some c
    /\ MTFvsField.tangential c !! 2%nat = Some (1 / (1 + 20 + 2 * 0 + Hy))
    /\ MTFvsField.sagittal c !! 2%nat = Some (1 / (1 + 0 + 2 * 20 + Hy)).
Proof.
  destruct (generate_data_entries unit sample_linspace sample_calculate_mtf
              sample_analysis
              (fun wl field =>
                 List.map (fun fq => 1 / (1 + fst fq + 2 * snd fq + snd field))
                   (MTFvsField.freqs_to_calc [10; 20]))
              0%nat 1%nat 2%nat (11 # 20)
              (0, 0 + inject_Z 2 * ((1 - 0) / (inject_Z 3 - 1)))
              ltac:(intros wl field _ _; split; [reflexivity|simpl; lia])
              eq_refl ltac:(simpl; lia) eq_refl)
    as (coords & results & wl_results & c & Hd & Hk & Hr & Hc & Ht & Hs).
  exists coords, results, wl_results, c,
    (0 + inject_Z 2 * ((1 - 0) / (inject_Z 3 - 1))).
  split; [exact Hd|]. split; [exact Hk|]. split; [reflexivity|].
  split; [exact Hr|]. split; [exact Hc|].
  split; [exact Ht|exact Hs].
Defined.

Lemma record_mtfs_loop_short (mtfs : list Q) (m k : nat)
  (rs : list MTFvsField.curves) :
  (k + m <= List.length rs)%nat ->
  (2 * k <= List.length mtfs)%nat ->
  (List.length mtfs < 2 * (k + m))%nat ->
  for_each (List.seq k m) (MTFvsField.record_mtfs mtfs) rs = Raise IndexError.
Proof.
  revert k rs. induction m as [|m IH]; intros k rs Hrs Hlo Hhi; [lia|].
  cbn [List.seq for_each]. unfold MTFvsField.record_mtfs at 1.
  destruct (lookup_lt_is_Some_2 rs k ltac:(lia)) as [c ->].
  destruct (Nat.lt_ge_cases (2 * k) (List.length mtfs)) as [H0|H0];
    [|rewrite (getitem_out_of_range mtfs (2 * k)) by lia; reflexivity].
  rewrite (getitem_in_range mtfs (2 * k)) by lia. cbn [bind].
  destruct (Nat.lt_ge_cases (2 * k + 1) (List.length mtfs)) as [H1|H1];
    [|rewrite (getitem_out_of_range mtfs (2 * k + 1)) by lia; reflexivity].
  rewrite (getitem_in_range mtfs (2 * k + 1)) by lia. cbn [bind].
  apply IH; rewrite ?length_insert; lia.
Qed.

(** X17.  When the sampler returns fewer than two values per frequency for
    the first field of the first wavelength, [_generate_data] raises
    [IndexError]. *)
Theorem generate_data_too_few_values
  (Optic : Type) (linspace : Q -> Q -> nat -> list Q)
  (calculate_mtf :
     Optic -> Q * Q -> Q -> nat -> list (Q * Q) -> result (list Q))
  (self : @MTFvsField.t Optic) (wl : Q) (wls : list Q) (Hy : Q)
  (rest mtfs : list Q) :
  MTFvsField.wavelengths self = wl :: wls ->
  linspace 0 1 (MTFvsField.num_fields self) = Hy :: rest ->
  calculate_mtf (MTFvsField.optic self) (0, Hy) wl (MTFvsField.num_rays self)
    (MTFvsField.freqs_to_calc (MTFvsField.frequencies self)) = Ok mtfs ->
  (List.length mtfs < 2 * List.length (MTFvsField.frequencies self))%nat ->
  MTFvsField._generate_data linspace calculate_mtf self = Raise IndexError.
Proof.
  intros Hw Hlin Hcalc Hshort.
  unfold MTFvsField._generate_data. rewrite Hw, Hlin.
  cbn [List.map for_list]. unfold MTFvsField.sample_wavelength at 1.
  cbn [for_each]. unfold MTFvsField.sample_field at 1.
  rewrite Hcalc. cbn [bind].
  rewrite record_mtfs_loop_short; [reflexivity| |lia|lia].
  rewrite length_map. lia.
Qed.

Lemma generate_data_too_few_values_witness :
  MTFvsField._generate_data sample_linspace short_calculate_mtf sample_analysis
  = Raise IndexError.
Proof.
  apply (generate_data_too_few_values unit sample_linspace short_calculate_mtf
           sample_analysis (11 # 20) [] _ _ [1] eq_refl eq_refl eq_refl).
  simpl. lia.
Defined.

(** ** [MTFvsField._check_limits] and the requested frequencies *)

(** X13.  [_check_limits] passes at once under [override_limits].  Otherwise it
    raises [ValueError] for more than five frequencies, before the
    wavelengths are resolved; with at most five it raises what resolving
    the wavelengths raises, raises [ValueError] for more than three resolved
    wavelengths, and passes for at most three. *)
Theorem check_limits_cases
  (Optic : Type)
  (resolve_wavelengths :
     Optic -> MTFvsField.wavelengths_arg -> result (list Q))
  (frequencies : list Q) (wavelengths : MTFvsField.wavelengths_arg)
  (optic : Optic) :
  MTFvsField._check_limits resolve_wavelengths frequencies true wavelengths
    optic = Ok tt
  /\ ((5 < List.length frequencies)%nat ->
      MTFvsField._check_limits resolve_wavelengths frequencies false
        wavelengths optic = Raise ValueError)
  /\ ((List.length frequencies <= 5)%nat ->
      (forall e, resolve_wavelengths optic wavelengths = Raise e ->
         MTFvsField._check_limits resolve_wavelengths frequencies false
           wavelengths optic = Raise e)
      /\ (forall wls, resolve_wavelengths optic wavelengths = Ok wls ->
          ((3 < List.length wls)%nat ->
           MTFvsField._check_limits resolve_wavelengths frequencies false
             wavelengths optic = Raise ValueError)
          /\ ((List.length wls <= 3)%nat ->
              MTFvsField._check_limits resolve_wavelengths frequencies false
                wavelengths optic = Ok tt))).
Proof.
  unfold MTFvsField._check_limits, MTFvsField.MAX_FREQUENCIES,
    MTFvsField.MAX_WAVELENGTHS.
  split; [reflexivity|]. split.
  - intros H. destruct (Nat.ltb_spec 5 (List.length frequencies)); [|lia].
    reflexivity.
  - intros H. destruct (Nat.ltb_spec 5 (List.length frequencies)); [lia|].
    split.
    + intros e ->. reflexivity.
    + intros wls ->. cbn [bind].
      destruct (Nat.ltb_spec 3 (List.length wls)); split; intros; try lia;
        reflexivity.
Qed.

(** X14.  The frequency pairs requested from the sampler: two per frequency, at
    position 2i the pair (f_i, 0) and at position 2i+1 the pair (0, f_i). *)
Theorem freqs_to_calc_layout (frequencies : list Q) :
  List.length (MTFvsField.freqs_to_calc frequencies)
  = (2 * List.length frequencies)%nat
  /\ forall i f, frequencies !! i = Some f ->
       MTFvsField.freqs_to_calc frequencies !! (2 * i)%nat = Some (f, 0)
       /\ MTFvsField.freqs_to_calc frequencies !! (2 * i + 1)%nat
          = Some (0, f).
Proof.
  split.
  - induction frequencies as [|f fs IH]; [reflexivity|].
    cbn [MTFvsField.freqs_to_calc List.flat_map List.length List.app].
    unfold MTFvsField.freqs_to_calc in IH. rewrite IH. lia.
  - induction frequencies as [|f0 fs IH]; intros i f Hi; [discriminate Hi|].
    destruct i as [|i].
    + injection Hi as ->. split; reflexivity.
    + replace (2 * S i)%nat with (S (S (2 * i))) by lia.
      replace (S (S (2 * i)) + 1)%nat with (S (S (2 * i + 1))) by lia.
      apply (IH i f Hi).
Qed.

(** ** Curve colours in [MTFvsField.view] *)

(** X18.  With a non-empty colour cycle every pair of wavelength and
    frequency gets an index into the cycle, pairs beyond its length
    included: the running number of the pair wraps around, so the curves of
    wavelength number i_wl + n_colors get the colours of wavelength number
    i_wl.  Two different pairs whose running numbers both fit into the cycle
    never share an index. *)
Theorem color_idx_in_cycle
  (n_colors n_freq i_wl i_freq j_wl j_freq : nat) :
  n_colors <> 0%nat ->
  (exists c, MTFvsField.color_idx n_colors n_freq i_wl i_freq = Some c
             /\ (c < n_colors)%nat)
  /\ MTFvsField.color_idx n_colors n_freq (i_wl + n_colors) i_freq
     = MTFvsField.color_idx n_colors n_freq i_wl i_freq
  /\ ((i_freq < n_freq)%nat ->
      (j_freq < n_freq)%nat ->
      (i_wl * n_freq + i_freq < n_colors)%nat ->
      (j_wl * n_freq + j_freq < n_colors)%nat ->
      MTFvsField.color_idx n_colors n_freq i_wl i_freq
      = MTFvsField.color_idx n_colors n_freq j_wl j_freq ->
      i_wl = j_wl /\ i_freq = j_freq).
Proof.
  intros NE. unfold MTFvsField.color_idx.
  destruct (Nat.eqb_spec n_colors 0) as [E|_]; [contradiction|].
  split; [|split].
  - eexists. split; [reflexivity|]. apply Nat.mod_upper_bound. exact NE.
  - f_equal.
    replace ((i_wl + n_colors) * n_freq + i_freq)%nat
      with (i_wl * n_freq + i_freq + n_freq * n_colors)%nat by lia.
    apply Nat.Div0.mod_add.
  - intros Hi Hj Hic Hjc H.
    rewrite !Nat.mod_small in H by assumption. injection H as H.
    assert (Hw : i_wl = j_wl) by nia.
    subst j_wl. split; [reflexivity|lia].
Qed.

Lemma color_idx_in_cycle_witness :
  (exists c, MTFvsField.color_idx 10 5 2 3 = Some c /\ (c < 10)%nat)
  /\ MTFvsField.color_idx 10 5 2 3 = Some 3%nat
  /\ MTFvsField.color_idx 10 5 (2 + 10) 3 = MTFvsField.color_idx 10 5 2 3.
Proof.
  destruct (color_idx_in_cycle 10 5 2 3 0 0 ltac:(lia)) as (Hv & Hw & _).
  split; [exact Hv|]. split; [reflexivity|exact Hw].
Defined.

(** ** Range of the sampled height, under torch *)

Lemma weighted_within (w p lo hi : Q) :
  0 <= w -> (w == 0 \/ lo <= p <= hi) -> lo * w <= p * w <= hi * w.
Proof.
  intros Hw [Hz|[Hl Hh]].
  - rewrite Hz, !Qmult_0_r. split; apply Qle_refl.
  - split; apply Qmult_le_compat_r; assumption.
Qed.

Lemma bilinear_within (p00 p01 p10 p11 a b lo hi : Q) :
  0 <= a -> a <= 1 -> 0 <= b -> b <= 1 ->
  lo <= p00 <= hi ->
  (a == 0 \/ lo <= p01 <= hi) ->
  (b == 0 \/ lo <= p10 <= hi) ->
  (a == 0 \/ b == 0 \/ lo <= p11 <= hi) ->
  lo <= p00 * ((1 - a) * (1 - b)) + p01 * (a * (1 - b))
        + p10 * ((1 - a) * b) + p11 * (a * b) <= hi.
Proof.
  intros Ha0 Ha1 Hb0 Hb1 H00 H01 H10 H11.
  assert (Ha : 0 <= 1 - a) by lra.
  assert (Hb : 0 <= 1 - b) by lra.
  pose proof (weighted_within ((1 - a) * (1 - b)) p00 lo hi
                (Qmult_le_0_compat _ _ Ha Hb) (or_intror H00)) as T00.
  assert (T01 : lo * (a * (1 - b)) <= p01 * (a * (1 - b)) <= hi * (a * (1 - b))).
  { apply weighted_within; [apply Qmult_le_0_compat; assumption|].
    destruct H01 as [Hz|H]; [left; rewrite Hz; ring|right; exact H]. }
  assert (T10 : lo * ((1 - a) * b) <= p10 * ((1 - a) * b) <= hi * ((1 - a) * b)).
  { apply weighted_within; [apply Qmult_le_0_compat; assumption|].
    destruct H10 as [Hz|H]; [left; rewrite Hz; ring|right; exact H]. }
  assert (T11 : lo * (a * b) <= p11 * (a * b) <= hi * (a * b)).
  { apply weighted_within; [apply Qmult_le_0_compat; assumption|].
    destruct H11 as [Hz|[Hz|H]];
      [left; rewrite Hz; ring|left; rewrite Hz; ring|right; exact H]. }
  assert (Slo : lo * ((1 - a) * (1 - b)) + lo * (a * (1 - b))
                + lo * ((1 - a) * b) + lo * (a * b) == lo) by ring.
  assert (Shi : hi * ((1 - a) * (1 - b)) + hi * (a * (1 - b))
                + hi * ((1 - a) * b) + hi * (a * b) == hi) by ring.
  destruct T00, T01, T10, T11.
  split.
  - rewrite <- Slo. repeat apply Qplus_le_compat; assumption.
  - rewrite <- Shi. repeat apply Qplus_le_compat; assumption.
Qed.

Lemma pixel_index_in_range (lo hi v : Q) (size : nat) :
  lo < hi -> lo <= v -> v <= hi -> (1 <= size)%nat ->
  0 <= unnormalize (GridInterpolator.normalize lo hi v) size
  /\ unnormalize (GridInterpolator.normalize lo hi v) size
     <= inject_Z (Z.of_nat (size - 1)).
Proof.
  intros Hlh Hlo Hhi Hsize.
  assert (Hn : unnormalize (GridInterpolator.normalize lo hi v) size
               == (v - lo) / (hi - lo) * inject_Z (Z.of_nat (size - 1))).
  { rewrite Nat2Z.inj_sub by lia. rewrite <- Z.add_opp_r.
    rewrite inject_Z_plus, inject_Z_opp. change (inject_Z (Z.of_nat 1)) with 1.
    unfold unnormalize, GridInterpolator.normalize. field. lra. }
  rewrite Hn.
  assert (Hs : 0 <= inject_Z (Z.of_nat (size - 1))).
  { change 0 with (inject_Z 0). rewrite <- Zle_Qle. lia. }
  assert (Ht0 : 0 <= (v - lo) / (hi - lo)).
  { apply Qle_shift_div_l; lra. }
  assert (Ht1 : (v - lo) / (hi - lo) <= 1).
  { apply Qle_shift_div_r; lra. }
  split.
  - apply Qmult_le_0_compat; assumption.
  - rewrite <- (Qmult_1_l (inject_Z (Z.of_nat (size - 1)))) at 2.
    apply Qmult_le_compat_r; assumption.
Qed.

Lemma floor_in_range (q : Q) (size : nat) :
  0 <= q -> q <= inject_Z (Z.of_nat (size - 1)) -> (1 <= size)%nat ->
  (0 <= Qfloor q < Z.of_nat size)%Z
  /\ 0 <= q - inject_Z (Qfloor q)
  /\ q - inject_Z (Qfloor q) <= 1
  /\ ((Qfloor q + 1 < Z.of_nat size)%Z \/ q - inject_Z (Qfloor q) == 0).
Proof.
  intros H0 H1 Hsize.
  pose proof (Qfloor_resp_le _ _ H0) as L0. change (Qfloor 0) with 0%Z in L0.
  pose proof (Qfloor_resp_le _ _ H1) as L1. rewrite Qfloor_Z in L1.
  pose proof (Qfloor_le q) as Fl. pose proof (Qlt_floor q) as Fu.
  rewrite inject_Z_plus in Fu. change (inject_Z 1) with 1 in Fu.
  split; [lia|]. split; [lra|]. split; [lra|].
  destruct (Z.lt_ge_cases (Qfloor q + 1) (Z.of_nat size)) as [Hin|Hout];
    [left; exact Hin|right].
  assert (E : Qfloor q = Z.of_nat (size - 1)) by lia.
  rewrite E in *. lra.
Qed.

Lemma pixel_within (g : list (list Q)) (lo hi : Q) (iy ix : Z) :
  (forall i j, (i < fst (shape g))%nat -> (j < snd (shape g))%nat ->
     lo <= List.nth j (List.nth i g []) 0 <= hi) ->
  (0 <= iy < Z.of_nat (fst (shape g)))%Z ->
  (0 <= ix < Z.of_nat (snd (shape g)))%Z ->
  lo <= pixel g iy ix <= hi.
Proof.
  intros H Hy Hx.
  rewrite <- (Z2Nat.id iy), <- (Z2Nat.id ix) by lia.
  rewrite pixel_in_grid by lia. apply H; lia.
Qed.

(** X7.  Under the torch strategy the height at a point inside the
    coordinate range lies between the smallest and the largest grid value: bilinear
    sampling never overshoots.  The axes must be increasing from first to
    last coordinate and the grid must have at least one row and column. *)
Theorem torch_height_within_grid_values
  (it : GridInterpolator.t) (xmin xmax ymin ymax : Q) (g : list (list Q))
  (dx dy : Q) (x y lo hi : Q) :
  GridInterpolator.state it
  = GridInterpolator.Torch xmin xmax ymin ymax g dx dy ->
  xmin < xmax -> ymin < ymax ->
  xmin <= x <= xmax -> ymin <= y <= ymax ->
  (1 <= fst (shape g))%nat -> (1 <= snd (shape g))%nat ->
  (forall i j, (i < fst (shape g))%nat -> (j < snd (shape g))%nat ->
     lo <= List.nth j (List.nth i g []) 0 <= hi) ->
  exists v, GridInterpolator.height it [x] [y] = Ok [v] /\ lo <= v <= hi.
Proof.
  intros Hs Hxr Hyr [Hx0 Hx1] [Hy0 Hy1] Hh Hw Hg.
  unfold GridInterpolator.height. rewrite Hs.
  unfold GridInterpolator._normalize_and_grid.
  cbn [List.map stack List.length Nat.eqb combine bind fst snd].
  eexists. split; [reflexivity|].
  unfold grid_sample. destruct (shape g) as [h w] eqn:Hshape.
  cbn [fst snd] in *. cbv zeta.
  set (ix := unnormalize (GridInterpolator.normalize xmin xmax x) w).
  set (iy := unnormalize (GridInterpolator.normalize ymin ymax y) h).
  destruct (pixel_index_in_range xmin xmax x w Hxr Hx0 Hx1 Hw) as [Ix0 Ix1].
  destruct (pixel_index_in_range ymin ymax y h Hyr Hy0 Hy1 Hh) as [Iy0 Iy1].
  fold ix in Ix0, Ix1. fold iy in Iy0, Iy1.
  destruct (floor_in_range ix w Ix0 Ix1 Hw) as (Cx & Ax0 & Ax1 & Ex).
  destruct (floor_in_range iy h Iy0 Iy1 Hh) as (Cy & Ay0 & Ay1 & Ey).
  set (cx := Qfloor ix) in *. set (cy := Qfloor iy) in *.
  assert (P : forall r c, (0 <= r < Z.of_nat h)%Z -> (0 <= c < Z.of_nat w)%Z ->
                lo <= pixel g r c <= hi).
  { intros r c Hr Hc. apply pixel_within; rewrite ?Hshape; cbn [fst snd];
      assumption. }
  rewrite !inject_Z_plus. change (inject_Z 1) with 1.
  setoid_replace (inject_Z cx + 1 - ix) with (1 - (ix - inject_Z cx))
    using relation Qeq by ring.
  setoid_replace (inject_Z cy + 1 - iy) with (1 - (iy - inject_Z cy))
    using relation Qeq by ring.
  apply bilinear_within; try assumption.
  - apply P; lia.
  - destruct Ex as [Hin|Hz]; [right; apply P; lia|left; exact Hz].
  - destruct Ey as [Hin|Hz]; [right; apply P; lia|left; exact Hz].
  - destruct Ex as [Hinx|Hz]; [|left; exact Hz].
    destruct Ey as [Hiny|Hz]; [|right; left; exact Hz].
    right; right. apply P; lia.
Qed.

Lemma torch_height_within_grid_values_witness :
  exists v,
    GridInterpolator.height sloped_interp [2] [1 # 4] = Ok [v]
    /\ 0 <= v <= 6.
Proof.
  apply (torch_height_within_grid_values sloped_interp 0 2 0 1 [[0; 1; 4]; [2; 3; 6]]
           (1 - 0) (1 - 0) 2 (1 # 4) 0 6 eq_refl);
    try reflexivity; try (split; discriminate); try (simpl; lia).
  intros i j Hi Hj. simpl in Hi, Hj.
  destruct i as [|[|i]]; try lia; destruct j as [|[|[|j]]]; try lia;
    split; discriminate.
Defined.

(** ** Gradient against phase for a [HeightProfile], under torch *)


